(** * struct-validator: a shallow embedding of [validator.go]

    The Go package [structvalidator] checks the string and integer fields of a
    struct against constraints written in struct tags.  This development
    embeds [Validate], [validateValue], [setValidationFromTag] and their
    helpers, and states the properties of the package's description against
    them.

    Conventions of the embedding:
    - Go's [int] and [int64] are [Z]; the platform is taken to be 64-bit, so
      [strconv.Atoi] accepts exactly the decimal numerals of the int64 range.
      No arithmetic of the package can overflow (it only compares and ORs).
    - Go strings are [string] (sequences of bytes), so [len] is
      [String.length].
    - A Go panic is the [Panic] outcome of the [result] monad; a normal return
      is [Return].
    - The standard library's [regexp] package is an interface
      ([RegexpEngine]); every theorem holds for an arbitrary engine.  A
      reference engine for a fragment of the RE2 syntax instantiates it in
      the examples.
    - [reflect.Value] keeps what the package reads from it: the type's name,
      its printed form, its kind and the payload. *)

From Stdlib Require Import ZArith String Ascii List Bool Lia.
From stdpp Require Import gmap strings.

Local Open Scope Z_scope.

(** ** Go strings: the functions of package [strings] the code calls *)

(** [strings.HasPrefix(s, prefix)] *)
Definition HasPrefix (s prefix : string) : bool := String.prefix prefix s.

(** [s[n:]] for [n <= len(s)] *)
Fixpoint string_drop (n : nat) (s : string) : string :=
  match n, s with
  | O, _ => s
  | S n', String _ s' => string_drop n' s'
  | S _, EmptyString => EmptyString
  end.

(** [strings.HasSuffix(s, suffix)]:
    [len(s) >= len(suffix) && s[len(s)-len(suffix):] == suffix] *)
Definition HasSuffix (s suffix : string) : bool :=
  (String.length suffix <=? String.length s)%nat
  && String.eqb (string_drop (String.length s - String.length suffix) s) suffix.

(** [strings.SplitN(s, " ", -1)]: all the substrings between single spaces;
    the result is never empty, and consecutive spaces give empty strings. *)
Fixpoint SplitN_space (s : string) : list string :=
  match s with
  | EmptyString => [EmptyString]
  | String c s' =>
      match SplitN_space s' with
      | [] => [String c EmptyString]
      | w :: ws =>
          if Ascii.eqb c " "%char then EmptyString :: w :: ws else String c w :: ws
      end
  end.

(** [strings.Replace(s, old, new, 1)]: the first occurrence of [old] is
    replaced by [new]. *)
Fixpoint Replace1 (s old new : string) : string :=
  if String.prefix old s then new +:+ string_drop (String.length old) s
  else match s with
       | EmptyString => EmptyString
       | String c s' => String c (Replace1 s' old new)
       end.

(** ** [strconv.Atoi] on a 64-bit platform *)

Definition minInt : Z := - 2 ^ 63.
Definition maxInt : Z := 2 ^ 63 - 1.

Definition digit_of (c : ascii) : option Z :=
  let n := Z.of_nat (nat_of_ascii c) in
  if (48 <=? n) && (n <=? 57) then Some (n - 48) else None.

Fixpoint digits_value (acc : Z) (s : string) : option Z :=
  match s with
  | EmptyString => Some acc
  | String c s' =>
      match digit_of c with
      | Some d => digits_value (acc * 10 + d) s'
      | None => None
      end
  end.

(** [Atoi s = None] stands for a returned error (syntax or range). *)
Definition Atoi (s : string) : option Z :=
  let '(neg, body) :=
    match s with
    | String "-"%char r => (true, r)
    | String "+"%char r => (false, r)
    | _ => (false, s)
    end in
  match body with
  | EmptyString => None
  | _ =>
      match digits_value 0 body with
      | Some n =>
          let v := if neg then - n else n in
          if (minInt <=? v) && (v <=? maxInt) then Some v else None
      | None => None
      end
  end.

(** ** Panics and normal returns *)

(** [reflect.Kind] *)
Inductive Kind :=
  | Invalid | Bool | Int | Int8 | Int16 | Int32 | Int64
  | Uint | Uint8 | Uint16 | Uint32 | Uint64 | Uintptr
  | Float32 | Float64 | Complex64 | Complex128
  | Array | Chan | Func | Interface | Map | Pointer | Slice
  | String_ | Struct | UnsafePointer.

Inductive panic :=
  | RegexpCompileError (pattern : string)
      (* regexp.MustCompile: the pattern does not parse *)
  | ValueError (method : string) (k : Kind).
      (* reflect.ValueError: call of [method] on a value of kind [k] *)

Inductive result (A : Type) :=
  | Return (a : A)
  | Panic (p : panic).
Arguments Return {A} a.
Arguments Panic {A} p.

Definition bind {A B} (r : result A) (k : A -> result B) : result B :=
  match r with
  | Return a => k a
  | Panic p => Panic p
  end.

Notation "'do' x <- r ; k" := (bind r (fun x => k))
  (at level 10, x name, r at level 100, k at level 200).

(** [b && e] where evaluating [e] may panic: Go evaluates [e] only when [b]
    holds. *)
Definition and_then (b : bool) (e : result bool) : result bool :=
  if b then e else Return false.

(** A loop whose body may panic. *)
Fixpoint foldM {A S} (body : S -> A -> result S) (l : list A) (s : S)
  : result S :=
  match l with
  | [] => Return s
  | a :: l' => do s' <- body s a; foldM body l' s'
  end.

(** ** [reflect]: types and values *)

(** What the package reads of a [reflect.Type]. *)
Record rtype := mkType {
  tName : string;     (* Type.Name(): "int", "string", "Country", "" if unnamed *)
  tString : string;   (* Type.String(): "int", "main.Country", "[]int" *)
  tKind : Kind        (* Type.Kind() *)
}.

(** The data a value of a given kind carries.  No type has kind [Invalid]. *)
Definition payload (k : Kind) : Type :=
  match k with
  | Invalid => Empty_set
  | String_ => string
  | Int | Int8 | Int16 | Int32 | Int64 => Z
  | Uint | Uint8 | Uint16 | Uint32 | Uint64 | Uintptr => Z
  | _ => unit
  end.

(** [reflect.Value]; [ZeroValue] is [reflect.Value{}], what
    [reflect.ValueOf(nil)] returns. *)
Inductive Value :=
  | ZeroValue
  | MkValue (t : rtype) (p : payload (tKind t)).

(** [Value.Type()] *)
Definition Value_Type (v : Value) : result rtype :=
  match v with
  | ZeroValue => Panic (ValueError "reflect.Value.Type" Invalid)
  | MkValue t _ => Return t
  end.

(** [Value.String()]: the string of a string value; for any other kind the
    text [<T Value>], never a panic. *)
Definition Value_String (v : Value) : string :=
  match v with
  | ZeroValue => "<invalid Value>"
  | MkValue t p =>
      match tKind t as k return payload k -> string with
      | String_ => fun s => s
      | _ => fun _ => "<" +:+ tString t +:+ " Value>"
      end p
  end.

(** [Value.Int()]: panics unless the kind is a signed integer kind. *)
Definition Value_Int (v : Value) : result Z :=
  match v with
  | ZeroValue => Panic (ValueError "reflect.Value.Int" Invalid)
  | MkValue t p =>
      match tKind t as k return payload k -> result Z with
      | Int | Int8 | Int16 | Int32 | Int64 => fun n => Return n
      | k => fun _ => Panic (ValueError "reflect.Value.Int" k)
      end p
  end.

(** Values of the predeclared types. *)
Definition stringType : rtype := mkType "string" "string" String_.
Definition intType : rtype := mkType "int" "int" Int.
Definition uintType : rtype := mkType "uint" "uint" Uint.
Definition uint8Type : rtype := mkType "uint8" "uint8" Uint8.
Definition uint16Type : rtype := mkType "uint16" "uint16" Uint16.
Definition uint32Type : rtype := mkType "uint32" "uint32" Uint32.
Definition uint64Type : rtype := mkType "uint64" "uint64" Uint64.

Definition ofString (s : string) : Value := MkValue stringType s.
Definition ofInt (n : Z) : Value := MkValue intType n.

(** The signed integer kinds, and a value of a type of such a kind: the
    predeclared [int], [int8], ... or a defined type such as
    [type Age int]. *)
Inductive SignedKind := KInt | KInt8 | KInt16 | KInt32 | KInt64.

Definition signedValue (name printed : string) (k : SignedKind) (n : Z)
  : Value :=
  match k with
  | KInt => MkValue (mkType name printed Int) n
  | KInt8 => MkValue (mkType name printed Int8) n
  | KInt16 => MkValue (mkType name printed Int16) n
  | KInt32 => MkValue (mkType name printed Int32) n
  | KInt64 => MkValue (mkType name printed Int64) n
  end.

Definition signedName (k : SignedKind) : string :=
  match k with
  | KInt => "int"
  | KInt8 => "int8"
  | KInt16 => "int16"
  | KInt32 => "int32"
  | KInt64 => "int64"
  end.

(** A value of the predeclared signed type of kind [k]. *)
Definition intValue (k : SignedKind) (n : Z) : Value :=
  signedValue (signedName k) (signedName k) k n.

(** The same for the unsigned kinds that [isNotInt] lists. *)
Inductive UnsignedKind := KUint | KUint8 | KUint16 | KUint32 | KUint64.

Definition uintValue (k : UnsignedKind) (n : Z) : Value :=
  match k with
  | KUint => MkValue uintType n
  | KUint8 => MkValue uint8Type n
  | KUint16 => MkValue uint16Type n
  | KUint32 => MkValue uint32Type n
  | KUint64 => MkValue uint64Type n
  end.

(** ** The regular-expression engine (package [regexp]) *)

Class RegexpEngine := {
  Regexp : Type;
  (** [regexp.Compile]; [None] stands for a returned error *)
  Compile : string -> option Regexp;
  (** [Regexp.MatchString]: whether the string contains any match *)
  MatchString : Regexp -> string -> bool
}.

(** [regexp.MustCompile] *)
Definition MustCompile `{RegexpEngine} (str : string) : result Regexp :=
  match Compile str with
  | Some re => Return re
  | None => Panic (RegexpCompileError str)
  end.

(** ** The package *)

(** values used with flags *)
Definition ValMinNotNil : Z := 2.
Definition ValMaxNotNil : Z := 4.
Definition Required : Z := 8.
Definition Email : Z := 16.

(** values for invalid field flags *)
Definition FailLenMin : Z := 2.
Definition FailLenMax : Z := 4.
Definition FailValMin : Z := 8.
Definition FailValMax : Z := 16.
Definition FailEmpty : Z := 32.
Definition FailRegexp : Z := 64.
Definition FailEmail : Z := 128.
Definition FailZero : Z := 256.

(** The pattern of the [emailRegex] literal of [validateValue]. *)
Definition emailPattern : string :=
  "^[a-zA-Z0-9.!#$%&'*+\/=?^_`{|}~-]+@[a-zA-Z0-9](?:[a-zA-Z0-9-]{0,61}[a-zA-Z0-9])?(?:\.[a-zA-Z0-9](?:[a-zA-Z0-9-]{0,61}[a-zA-Z0-9])?)*$".

(** The keys of the inner loop of [setValidationFromTag]. *)
Definition valOpts : list string :=
  ["lenmin"; "lenmax"; "valmin"; "valmax"; "regexp"].

(** A struct field as [reflect] presents it: [Type.Field(j)] gives the name,
    the type and the tag, [Value.FieldByName] the value.  The tag is the
    list of its key:"value" pairs. *)
Record StructField := mkField {
  fName : string;
  fType : rtype;
  fTag : list (string * string);
  fValue : payload (tKind fType)
}.

(** [field.Tag.Get(key)]: the value of the first pair with that key, or the
    empty string. *)
Fixpoint Tag_Get (tag : list (string * string)) (key : string) : string :=
  match tag with
  | [] => ""
  | (k, v) :: tag' => if String.eqb k key then v else Tag_Get tag' key
  end.

(** The first argument of [Validate]: a struct, or a pointer to one.  (A nil
    pointer or a value that is not a struct makes [Validate] panic before
    its loop, in [Type()] or [NumField()]; such arguments are not
    modelled.) *)
Inductive object :=
  | StructValue (fields : list StructField)
  | StructPointer (fields : list StructField).

(** The fields of [reflect.Indirect(v).Type()]. *)
Definition fieldsOf (obj : object) : list StructField :=
  match obj with
  | StructValue fs => fs
  | StructPointer fs => fs
  end.

(** [v.Elem()] for [v := reflect.ValueOf(obj)]: the struct a pointer points
    to; a panic for a struct. *)
Definition Value_Elem (obj : object) : result (list StructField) :=
  match obj with
  | StructPointer fs => Return fs
  | StructValue _ => Panic (ValueError "reflect.Value.Elem" Struct)
  end.

(** [Value.FieldByName(name)] on a struct value: the first field of that
    name, the zero Value if there is none. *)
Fixpoint FieldByName (fs : list StructField) (name : string) : Value :=
  match fs with
  | [] => ZeroValue
  | f :: fs' =>
      if String.eqb (fName f) name then MkValue (fType f) (fValue f)
      else FieldByName fs' name
  end.

Definition isNotInt (k : Kind) : bool :=
  match k with
  | Int64 | Int32 | Int16 | Int8 | Int
  | Uint64 | Uint32 | Uint16 | Uint8 | Uint => true
  | _ => false
  end.

Definition isNotString (k : Kind) : bool :=
  match k with
  | String_ => true
  | _ => false
  end.

(** The loop over [MapKeys] compares every key with [k]. *)
Definition isKeyInMap (k : string) (m : gmap string Value) : bool :=
  existsb (fun key => String.eqb key k) (map fst (map_to_list m)).

(** Optional configuration for validation. *)
Record ValidationOptions := mkOptions {
  RestrictFields : gmap string bool;
  OverwriteFieldTags : gmap string (gmap string string);
  OverwriteTagName : string;
  ValidateWhenSuffix : bool;
  OverwriteFieldValues : gmap string Value
}.

(** [m[k]] on a Go map: the zero value of the element type when [k] is
    absent. *)
Definition index_bool (m : gmap string bool) (k : string) : bool :=
  default false (m !! k).
Definition index_string (m : gmap string string) (k : string) : string :=
  default "" (m !! k).
Definition index_tags (m : gmap string (gmap string string)) (k : string)
  : gmap string string :=
  default ∅ (m !! k).
Definition index_value (m : gmap string Value) (k : string) : Value :=
  default ZeroValue (m !! k).

Section Validator.
Context {engine : RegexpEngine}.

Record FieldValidation := mkFieldValidation {
  lenMin : Z;
  lenMax : Z;
  valMin : Z;
  valMax : Z;
  regexp : option Regexp;   (* nil is [None] *)
  flags : Z
}.

Definition set_lenMin (v : FieldValidation) (i : Z) : FieldValidation :=
  mkFieldValidation i (lenMax v) (valMin v) (valMax v) (regexp v) (flags v).
Definition set_lenMax (v : FieldValidation) (i : Z) : FieldValidation :=
  mkFieldValidation (lenMin v) i (valMin v) (valMax v) (regexp v) (flags v).
Definition set_valMin (v : FieldValidation) (i : Z) : FieldValidation :=
  mkFieldValidation (lenMin v) (lenMax v) i (valMax v) (regexp v) (flags v).
Definition set_valMax (v : FieldValidation) (i : Z) : FieldValidation :=
  mkFieldValidation (lenMin v) (lenMax v) (valMin v) i (regexp v) (flags v).
Definition set_regexp (v : FieldValidation) (re : option Regexp)
  : FieldValidation :=
  mkFieldValidation (lenMin v) (lenMax v) (valMin v) (valMax v) re (flags v).
Definition set_flags (v : FieldValidation) (f : Z) : FieldValidation :=
  mkFieldValidation (lenMin v) (lenMax v) (valMin v) (valMax v) (regexp v) f.

(** [v.flags = v.flags | bit] *)
Definition or_flag (v : FieldValidation) (bit : Z) : FieldValidation :=
  set_flags v (Z.lor (flags v) bit).

(** [validation.flags&bit > 0] *)
Definition has_flag (v : FieldValidation) (bit : Z) : bool :=
  Z.land (flags v) bit >? 0.

(** [validateValue], lines 129-180.  The result [(false, code)] is a failed
    check, [(true, 0)] a pass. *)
Definition validateValue (value : Value) (validation : FieldValidation)
  : result (bool * Z) :=
  let minCanBeZero := has_flag validation ValMinNotNil in
  let maxCanBeZero := has_flag validation ValMaxNotNil in
  (* lines 139-146 *)
  do failed <-
    (if has_flag validation Required then
       do t <- Value_Type value;
       if String.eqb (tName t) "string" && String.eqb (Value_String value) ""
       then Return (Some FailEmpty)
       else
         do t <- Value_Type value;
         do zero <-
           and_then (HasPrefix (tName t) "int")
             (do n <- Value_Int value;
              Return ((n =? 0) && negb minCanBeZero && negb maxCanBeZero
                      && (valMin validation =? 0) && (valMax validation =? 0)));
         Return (if zero then Some FailZero else None)
     else Return None);
  match failed with
  | Some code => Return (false, code)
  | None =>
  (* lines 148-168 *)
  do t <- Value_Type value;
  do failed <-
    (if String.eqb (tName t) "string" then
       let len := Z.of_nat (String.length (Value_String value)) in
       if (lenMin validation >? 0) && (len <? lenMin validation)
       then Return (Some FailLenMin)
       else if (lenMax validation >? 0) && (len >? lenMax validation)
       then Return (Some FailLenMax)
       else if match regexp validation with
               | Some re => negb (MatchString re (Value_String value))
               | None => false
               end
       then Return (Some FailRegexp)
       else if has_flag validation Email then
         do emailRegex <- MustCompile emailPattern;
         if negb (MatchString emailRegex (Value_String value))
         then Return (Some FailEmail)
         else Return None
       else Return None
     else Return None);
  match failed with
  | Some code => Return (false, code)
  | None =>
  (* lines 170-177 *)
  do t <- Value_Type value;
  if HasPrefix (tName t) "int" then
    do belowMin <-
      and_then ((negb (valMin validation =? 0)) || minCanBeZero)
        (do n <- Value_Int value; Return (valMin validation >? n));
    if belowMin then Return (false, FailValMin)
    else
      do aboveMax <-
        and_then ((negb (valMax validation =? 0)) || maxCanBeZero)
          (do n <- Value_Int value; Return (valMax validation <? n));
      if aboveMax then Return (false, FailValMax)
      else Return (true, 0)
  else Return (true, 0)
  end end.

(** The body of the inner loop of [setValidationFromTag], lines 192-219,
    for one token [opt] and one key [valOpt]. *)
Definition setValOpt (opt : string) (v : FieldValidation) (valOpt : string)
  : result FieldValidation :=
  if HasPrefix opt (valOpt +:+ ":") then
    let val := Replace1 opt (valOpt +:+ ":") "" in
    if String.eqb valOpt "regexp" then
      do re <- MustCompile val;
      Return (set_regexp v (Some re))
    else
      match Atoi val with
      | None => Return v
      | Some i =>
          if String.eqb valOpt "lenmin" then Return (set_lenMin v i)
          else if String.eqb valOpt "lenmax" then Return (set_lenMax v i)
          else if String.eqb valOpt "valmin" then
            let v := set_valMin v i in
            Return (if i =? 0 then or_flag v ValMinNotNil else v)
          else if String.eqb valOpt "valmax" then
            let v := set_valMax v i in
            Return (if i =? 0 then or_flag v ValMaxNotNil else v)
          else Return v
      end
  else Return v.

(** The body of the outer loop, lines 185-221, for one token. *)
Definition setOpt (v : FieldValidation) (opt : string)
  : result FieldValidation :=
  let v := if String.eqb opt "req" then or_flag v Required else v in
  let v := if String.eqb opt "email" then or_flag v Email else v in
  foldM (setValOpt opt) valOpts v.

(** [setValidationFromTag]: the validation after the call, or the panic of
    [regexp.MustCompile]. *)
Definition setValidationFromTag (v : FieldValidation) (tag : string)
  : result FieldValidation :=
  foldM setOpt (SplitN_space tag) v.

(** Lines 79-81: [FieldValidation{}] with both lengths at -1. *)
Definition newValidation : FieldValidation :=
  mkFieldValidation (-1) (-1) 0 0 None 0.

(** [options != nil && p(options)] *)
Definition with_options (options : option ValidationOptions)
  (p : ValidationOptions -> bool) : bool :=
  match options with
  | Some o => p o
  | None => false
  end.

(** Lines 57-60. *)
Definition tagNameOf (options : option ValidationOptions) : string :=
  match options with
  | Some o => if negb (String.eqb (OverwriteTagName o) "")
              then OverwriteTagName o else "validation"
  | None => "validation"
  end.

(** Lines 83-95: the tag values of a field, each replaced by a non-empty
    entry of [OverwriteFieldTags]. *)
Definition tagValues (options : option ValidationOptions) (tagName : string)
  (field : StructField) : string * string :=
  let tagVal := Tag_Get (fTag field) tagName in
  let tagRegexpVal := Tag_Get (fTag field) (tagName +:+ "_regexp") in
  if with_options options (fun o => (0 <? size (OverwriteFieldTags o))%nat)
  then
    match options with
    | Some o =>
        let over := index_tags (OverwriteFieldTags o) (fName field) in
        if (0 <? size over)%nat then
          (if negb (String.eqb (index_string over tagName) "")
           then index_string over tagName else tagVal,
           if negb (String.eqb (index_string over (tagName +:+ "_regexp")) "")
           then index_string over (tagName +:+ "_regexp") else tagRegexpVal)
        else (tagVal, tagRegexpVal)
    | None => (tagVal, tagRegexpVal)
    end
  else (tagVal, tagRegexpVal).

(** Lines 79-110: the validation of one field. *)
Definition fieldValidation (options : option ValidationOptions)
  (tagName : string) (field : StructField) : result FieldValidation :=
  let '(tagVal, tagRegexpVal) := tagValues options tagName field in
  do validation <- setValidationFromTag newValidation tagVal;
  do validation <-
    (if negb (String.eqb tagRegexpVal "") then
       do re <- MustCompile tagRegexpVal;
       Return (set_regexp validation (Some re))
     else Return validation);
  if with_options options ValidateWhenSuffix then
    let validation :=
      if HasSuffix (fName field) "Email" then or_flag validation Email
      else validation in
    let validation :=
      if HasSuffix (fName field) "Price"
         && (valMin validation =? 0) && (valMax validation =? 0)
         && (Z.land (flags validation) ValMinNotNil =? 0)
         && (Z.land (flags validation) ValMaxNotNil =? 0)
      then or_flag (set_valMin validation 0) ValMinNotNil
      else validation in
    Return validation
  else Return validation.

(** The condition of line 113: the field has an entry in
    [OverwriteFieldValues]. *)
Definition valueOverwritten (options : option ValidationOptions)
  (field : StructField) : bool :=
  with_options options (fun o =>
    (0 <? size (OverwriteFieldValues o))%nat
    && isKeyInMap (fName field) (OverwriteFieldValues o)).

(** Lines 112-117: the value that is checked. *)
Definition fieldValueOf (obj : object) (options : option ValidationOptions)
  (field : StructField) : result Value :=
  if valueOverwritten options field
  then
    match options with
    | Some o => Return (index_value (OverwriteFieldValues o) (fName field))
    | None => Return ZeroValue
    end
  else
    do s <- Value_Elem obj;
    Return (FieldByName s (fName field)).

(** The condition of line 70: [RestrictFields] is not empty and does not
    hold [true] for the field. *)
Definition restrictedOut (options : option ValidationOptions)
  (field : StructField) : bool :=
  with_options options (fun o =>
    (0 <? size (RestrictFields o))%nat
    && negb (index_bool (RestrictFields o) (fName field))).

(** The condition of line 75: the kind is neither an integer kind nor
    [String]. *)
Definition filteredOut (field : StructField) : bool :=
  negb (isNotInt (tKind (fType field)))
  && negb (isNotString (tKind (fType field))).

(** Lines 69-77: the fields the loop skips. *)
Definition skipped (options : option ValidationOptions) (field : StructField)
  : bool :=
  restrictedOut options field || filteredOut field.

(** The body of the loop of [Validate], lines 66-123, on the pair
    [(valid, invalidFields)]. *)
Definition validateField (obj : object) (options : option ValidationOptions)
  (tagName : string) (st : bool * gmap string Z) (field : StructField)
  : result (bool * gmap string Z) :=
  if skipped options field then Return st
  else
    do validation <- fieldValidation options tagName field;
    do fieldValue <- fieldValueOf obj options field;
    do r <- validateValue fieldValue validation;
    let '(fieldValid, failureFlags) := r in
    if negb fieldValid
    then Return (false, <[fName field := failureFlags]> (snd st))
    else Return st.

(** [Validate], lines 52-127. *)
Definition Validate (obj : object) (options : option ValidationOptions)
  : result (bool * gmap string Z) :=
  foldM (validateField obj options (tagNameOf options)) (fieldsOf obj)
        (true, ∅).

End Validator.

(** ** A reference engine for a fragment of the RE2 syntax

    The fragment: literal ASCII characters, [.], [^] and [$] (beginning and
    end of the text), classes [[...]] and [[^...]] with ranges, groups
    [(...)] and [(?:...)], alternation, the repetitions [*], [+], [?] and
    [{n}], [{n,}], [{n,m}] with their lazy forms, escaped punctuation and
    [\d \w \s \D \W \S \n \t \r].  Matching is by derivatives, byte by byte,
    which agrees with Go on ASCII patterns and subjects.  A pattern outside
    the fragment is refused like a malformed one, so the instance stands for
    Go's engine on the fragment only. *)
Module RE2.

Inductive regex :=
  | Fail                                          (* matches nothing *)
  | Eps                                           (* the empty string *)
  | Class (neg : bool) (ranges : list (ascii * ascii))
  | Bol                                           (* ^ *)
  | Eol                                           (* $ *)
  | Seq (r1 r2 : regex)
  | Alt (r1 r2 : regex)
  | Star (r : regex).

Definition code (c : ascii) : nat := nat_of_ascii c.

Definition in_class (c : ascii) (neg : bool) (ranges : list (ascii * ascii))
  : bool :=
  xorb neg
    (existsb (fun '(lo, hi) => (code lo <=? code c)%nat && (code c <=? code hi)%nat)
       ranges).

(** Whether the empty string matches, at the beginning ([atStart]) and at
    the end ([atEnd]) of the text. *)
Fixpoint nullable (atStart atEnd : bool) (r : regex) : bool :=
  match r with
  | Fail => false
  | Eps => true
  | Class _ _ => false
  | Bol => atStart
  | Eol => atEnd
  | Seq r1 r2 => nullable atStart atEnd r1 && nullable atStart atEnd r2
  | Alt r1 r2 => nullable atStart atEnd r1 || nullable atStart atEnd r2
  | Star _ => true
  end.

Definition seq (r1 r2 : regex) : regex :=
  match r1, r2 with
  | Fail, _ => Fail
  | _, Fail => Fail
  | Eps, _ => r2
  | _, _ => Seq r1 r2
  end.

Definition alt (r1 r2 : regex) : regex :=
  match r1, r2 with
  | Fail, _ => r2
  | _, Fail => r1
  | _, _ => Alt r1 r2
  end.

(** The derivative: what must match after the byte [c] has been read. *)
Fixpoint deriv (atStart : bool) (c : ascii) (r : regex) : regex :=
  match r with
  | Fail | Eps | Bol | Eol => Fail
  | Class neg ranges => if in_class c neg ranges then Eps else Fail
  | Seq r1 r2 =>
      alt (seq (deriv atStart c r1) r2)
          (if nullable atStart false r1 then deriv atStart c r2 else Fail)
  | Alt r1 r2 => alt (deriv atStart c r1) (deriv atStart c r2)
  | Star r1 => seq (deriv atStart c r1) (Star r1)
  end.

Fixpoint run (atStart : bool) (r : regex) (s : string) : bool :=
  match s with
  | EmptyString => nullable atStart true r
  | String c s' => run false (deriv atStart c r) s'
  end.

(** The whole text matches. *)
Definition fullMatch (r : regex) (s : string) : bool := run true r s.

Definition anything : regex := Star (Class true []).

(** Some part of the text matches: what [MatchString] reports. *)
Definition search (r : regex) (s : string) : bool :=
  run true (Seq anything (Seq r anything)) s.

(** *** Parsing *)

Definition lit (c : ascii) : regex := Class false [(c, c)].
Definition digitRanges : list (ascii * ascii) := [("0", "9")]%char.
Definition wordRanges : list (ascii * ascii) :=
  [("0", "9"); ("A", "Z"); ("a", "z"); ("_", "_")]%char.
Definition spaceRanges : list (ascii * ascii) :=
  [("009", "010"); ("012", "013"); (" ", " ")]%char.

Definition is_alnum (c : ascii) : bool :=
  in_class c false [("0", "9"); ("A", "Z"); ("a", "z")]%char.

(** The meaning of [\c] outside a class. *)
Definition escape (c : ascii) : option regex :=
  if (128 <=? code c)%nat then None
  else if negb (is_alnum c) then Some (lit c)
  else if Ascii.eqb c "d" then Some (Class false digitRanges)
  else if Ascii.eqb c "D" then Some (Class true digitRanges)
  else if Ascii.eqb c "w" then Some (Class false wordRanges)
  else if Ascii.eqb c "W" then Some (Class true wordRanges)
  else if Ascii.eqb c "s" then Some (Class false spaceRanges)
  else if Ascii.eqb c "S" then Some (Class true spaceRanges)
  else if Ascii.eqb c "n" then Some (lit "010")
  else if Ascii.eqb c "t" then Some (lit "009")
  else if Ascii.eqb c "r" then Some (lit "013")
  else None.

(** One character of a class, plain or escaped punctuation, and the number
    of bytes it takes. *)
Definition class_char (s : string) : option (ascii * nat * string) :=
  match s with
  | EmptyString => None
  | String c r =>
      if (128 <=? code c)%nat then None
      else if Ascii.eqb c "\" then
        match r with
        | String x r' =>
            if (128 <=? code x)%nat || is_alnum x then None
            else Some (x, 2%nat, r')
        | EmptyString => None
        end
      else if Ascii.eqb c "[" then
        match r with
        | String ":"%char _ => None
        | _ => Some (c, 1%nat, r)
        end
      else Some (c, 1%nat, r)
  end.

(** One item of a class, a character or a range, and its length. *)
Definition class_item (s : string) : option (ascii * ascii * nat) :=
  match class_char s with
  | None => None
  | Some (lo, n1, s1) =>
      match s1 with
      | String "-"%char (String d s2) =>
          if Ascii.eqb d "]" then Some (lo, lo, n1)
          else
            match class_char (String d s2) with
            | None => None
            | Some (hi, n2, _) =>
                if (code hi <? code lo)%nat then None
                else Some (lo, hi, (n1 + 1 + n2)%nat)
            end
      | _ => Some (lo, lo, n1)
      end
  end.

(** The items of a class up to its closing bracket, and the number of bytes
    read, the bracket included. *)
Fixpoint class_items (s : string) (skip : nat) (first : bool)
  (acc : list (ascii * ascii)) (read : nat)
  : option (list (ascii * ascii) * nat) :=
  match s with
  | EmptyString => None
  | String c rest =>
      match skip with
      | S k => class_items rest k first acc (S read)
      | O =>
          if Ascii.eqb c "]" && negb first then Some (rev acc, S read)
          else
            match class_item s with
            | None => None
            | Some (lo, hi, len) =>
                class_items rest (len - 1) false ((lo, hi) :: acc) (S read)
            end
      end
  end.

(** What follows an opening bracket. *)
Definition parse_class (s : string) : option (regex * nat) :=
  match s with
  | String "^"%char rest =>
      match class_items rest 0 true [] 1 with
      | Some (ranges, n) => Some (Class true ranges, n)
      | None => None
      end
  | _ =>
      match class_items s 0 true [] 0 with
      | Some (ranges, n) => Some (Class false ranges, n)
      | None => None
      end
  end.

(** A decimal number: its value, its length and what follows. *)
Fixpoint read_digits (s : string) (acc : N) (len : nat) : N * nat * string :=
  match s with
  | String c rest =>
      if in_class c false digitRanges
      then read_digits rest (acc * 10 + N.of_nat (code c - 48)) (S len)
      else (acc, len, s)
  | EmptyString => (acc, len, s)
  end.

Definition leading_zero (s : string) : bool :=
  match s with
  | String "0"%char (String d _) => in_class d false digitRanges
  | _ => false
  end.

(** What follows an opening brace: the bounds of the repetition and the
    number of bytes read, or [None] when the brace is a literal one. *)
Definition parse_repeat (s : string) : option (N * option N * nat) :=
  let '(n, l1, s1) := read_digits s 0%N 0%nat in
  if (l1 =? 0)%nat || leading_zero s then None
  else
    match s1 with
    | String "}"%char _ => Some (n, Some n, S l1)
    | String ","%char (String "}"%char _) => Some (n, None, S (S l1))
    | String ","%char s2 =>
        let '(m, l2, s3) := read_digits s2 0%N 0%nat in
        if (l2 =? 0)%nat || leading_zero s2 then None
        else
          match s3 with
          | String "}"%char _ => Some (n, Some m, (l1 + 1 + l2 + 1)%nat)
          | _ => None
          end
    | _ => None
    end.

Fixpoint power (r : regex) (n : nat) (tail : regex) : regex :=
  match n with
  | O => tail
  | S n' => Seq r (power r n' tail)
  end.

Fixpoint upto (r : regex) (n : nat) : regex :=
  match n with
  | O => Eps
  | S n' => Alt (Seq r (upto r n')) Eps
  end.

(** [r{n,m}], or [None] for an invalid repeat count. *)
Definition repeat (r : regex) (n : N) (m : option N) : option regex :=
  match m with
  | None =>
      if (1000 <? n)%N then None
      else Some (power r (N.to_nat n) (Star r))
  | Some m =>
      if (1000 <? n)%N || (1000 <? m)%N || (m <? n)%N then None
      else Some (power r (N.to_nat n) (upto r (N.to_nat (m - n))))
  end.

(** An open group: the finished alternatives and the items of the current
    one, both in reverse. *)
Record frame := mkFrame { alts : list regex; items : list regex }.

Definition seq_of (items : list regex) : regex :=
  fold_left (fun acc r => Seq r acc) items Eps.

Definition close (f : frame) : regex :=
  fold_left (fun acc a => Alt a acc) (alts f) (seq_of (items f)).

(** [quant]: 0 when the last item may take a repetition, 1 when it is a
    repetition (a lazy mark may follow), 2 after the lazy mark. *)
Record pstate := mkState {
  stack : list frame;
  cur : frame;
  quant : nat;
  skip : nat
}.

Definition push_item (st : pstate) (r : regex) (n : nat) : pstate :=
  mkState (stack st) (mkFrame (alts (cur st)) (r :: items (cur st))) 0 n.

Definition requantify (st : pstate) (f : regex -> option regex) (n : nat)
  : option pstate :=
  match items (cur st), quant st with
  | r :: rs, O =>
      match f r with
      | Some r' => Some (mkState (stack st) (mkFrame (alts (cur st)) (r' :: rs)) 1 n)
      | None => None
      end
  | _, _ => None
  end.

(** One byte [c] of the pattern, [rest] being what follows it. *)
Definition step (c : ascii) (rest : string) (st : pstate) : option pstate :=
  if (128 <=? code c)%nat then None
  else if Ascii.eqb c "(" then
    match rest with
    | String "?"%char (String ":"%char _) =>
        Some (mkState (cur st :: stack st) (mkFrame [] []) 0 2)
    | String "?"%char _ => None
    | _ => Some (mkState (cur st :: stack st) (mkFrame [] []) 0 0)
    end
  else if Ascii.eqb c ")" then
    match stack st with
    | f :: stk => Some (mkState stk (mkFrame (alts f) (close (cur st) :: items f)) 0 0)
    | [] => None
    end
  else if Ascii.eqb c "|" then
    Some (mkState (stack st)
            (mkFrame (seq_of (items (cur st)) :: alts (cur st)) []) 0 0)
  else if Ascii.eqb c "*" then requantify st (fun r => Some (Star r)) 0
  else if Ascii.eqb c "+" then requantify st (fun r => Some (Seq r (Star r))) 0
  else if Ascii.eqb c "?" then
    match items (cur st), quant st with
    | _ :: _, 1%nat => Some (mkState (stack st) (cur st) 2 0)
    | _, _ => requantify st (fun r => Some (Alt r Eps)) 0
    end
  else if Ascii.eqb c "{" then
    match parse_repeat rest with
    | Some (n, m, len) => requantify st (fun r => repeat r n m) len
    | None => Some (push_item st (lit c) 0)
    end
  else if Ascii.eqb c "[" then
    match parse_class rest with
    | Some (r, len) => Some (push_item st r len)
    | None => None
    end
  else if Ascii.eqb c "\" then
    match rest with
    | String x _ =>
        match escape x with
        | Some r => Some (push_item st r 1)
        | None => None
        end
    | EmptyString => None
    end
  else if Ascii.eqb c "^" then Some (push_item st Bol 0)
  else if Ascii.eqb c "$" then Some (push_item st Eol 0)
  else if Ascii.eqb c "." then Some (push_item st (Class true [("010", "010")]%char) 0)
  else Some (push_item st (lit c) 0).

Fixpoint parse_from (s : string) (st : pstate) : option regex :=
  match s with
  | EmptyString =>
      match stack st with
      | [] => Some (close (cur st))
      | _ :: _ => None
      end
  | String c rest =>
      match skip st with
      | S k => parse_from rest (mkState (stack st) (cur st) (quant st) k)
      | O =>
          match step c rest st with
          | Some st' => parse_from rest st'
          | None => None
          end
      end
  end.

Definition parse (pattern : string) : option regex :=
  parse_from pattern (mkState [] (mkFrame [] []) 0 0).

End RE2.

#[export] Instance RE2_engine : RegexpEngine := {
  Regexp := RE2.regex;
  Compile := RE2.parse;
  MatchString := RE2.search
}.

(** ** The words of the description, as expressions of the source *)

Section Vocabulary.
Context {engine : RegexpEngine}.

(** [minCanBeZero] and [maxCanBeZero] of [validateValue]. *)
Definition minIsMeaningfulZero (v : FieldValidation) : bool :=
  has_flag v ValMinNotNil.
Definition maxIsMeaningfulZero (v : FieldValidation) : bool :=
  has_flag v ValMaxNotNil.

(** [validation.valMin != 0 || minCanBeZero], line 171, and its twin of line
    174. *)
Definition lowerBoundActive (v : FieldValidation) : bool :=
  negb (valMin v =? 0) || minIsMeaningfulZero v.
Definition upperBoundActive (v : FieldValidation) : bool :=
  negb (valMax v =? 0) || maxIsMeaningfulZero v.

(** [len(value.String())] *)
Definition len (s : string) : Z := Z.of_nat (String.length s).

(** A declaration parsed from the fresh validation of lines 79-81, then
    evaluated on a value. *)
Definition evaluateDeclared (tag : string) (value : Value)
  : result (bool * Z) :=
  do validation <- setValidationFromTag newValidation tag;
  validateValue value validation.

End Vocabulary.

(** ** The loop body of [Validate], field by field *)

(** The failure codes, lines 26-33. *)
Definition failureCodes : list Z :=
  [FailLenMin; FailLenMax; FailValMin; FailValMax;
   FailEmpty; FailRegexp; FailEmail; FailZero].

Section Outcome.
Context {engine : RegexpEngine}.

(** Lines 79-119 for one field that is not skipped: its validation is
    resolved, its value is read, and the value is validated. *)
Definition fieldOutcome (obj : object) (options : option ValidationOptions)
  (tagName : string) (field : StructField) : result (bool * Z) :=
  do validation <- fieldValidation options tagName field;
  do fieldValue <- fieldValueOf obj options field;
  validateValue fieldValue validation.

(** What lines 120-123 record for a field: the code of a failed check,
    nothing for a skipped field or a passed check. *)
Definition reported (obj : object) (options : option ValidationOptions)
  (tagName : string) (field : StructField) : option Z :=
  if skipped options field then None
  else
    match fieldOutcome obj options tagName field with
    | Return (false, code) => Some code
    | _ => None
    end.

(** The bits of [flags] set in [v] are set in [v']. *)
Definition keeps_flags (v v' : FieldValidation) : Prop :=
  forall k, Z.testbit (flags v) k = true -> Z.testbit (flags v') k = true.

End Outcome.

(** ** The structs of [validator_test.go] and of the examples *)

(** The pattern as the reference engine compiles it. *)
Definition compiled (pattern : string) : RE2.regex :=
  default RE2.Fail (RE2.parse pattern).

Definition stringField (name : string) (tag : list (string * string))
  (s : string) : StructField :=
  mkField name stringType tag s.

Definition intField (name : string) (tag : list (string * string)) (n : Z)
  : StructField :=
  mkField name intType tag n.

(** [Test1], and [Test2] for the key "mytag". *)
Definition Test1 (key : string) (firstName lastName : string) (age price : Z)
  (postCode email : string) (belowZero discountPrice : Z)
  (country county : string) : list StructField :=
  [ stringField "FirstName" [(key, "req lenmin:5 lenmax:25")] firstName;
    stringField "LastName" [(key, "req lenmin:2 lenmax:50")] lastName;
    intField "Age" [(key, "req valmin:18 valmax:150")] age;
    intField "Price" [(key, "req valmin:0 valmax:9999")] price;
    stringField "PostCode"
      [(key, "req"); (key +:+ "_regexp", "^[0-9][0-9]-[0-9][0-9][0-9]$")]
      postCode;
    stringField "Email" [(key, "req email")] email;
    intField "BelowZero" [(key, "valmin:-6 valmax:-2")] belowZero;
    intField "DiscountPrice" [(key, "valmin:0 valmax:8000")] discountPrice;
    stringField "Country" [(key +:+ "_regexp", "^[A-Z][A-Z]$")] country;
    stringField "County" [(key, "lenmax:40")] county ].

(** The struct of [TestWithInvalidValues]. *)
Definition invalidTest1 (key : string) : list StructField :=
  Test1 key "123456789012345678901234567890" "b" 15 0 "AA123" "invalidEmail"
    8 9999 "Tokelau" "".

Definition Test3 (zeroMin zeroMax zeroBoth notZero onlyMin onlyMax : Z)
  : list StructField :=
  [ intField "ZeroMin" [("mytag", "valmin:0 valmax:5")] zeroMin;
    intField "ZeroMax" [("mytag", "valmax:0")] zeroMax;
    intField "ZeroBoth" [("mytag", "valmin:0 valmax:0")] zeroBoth;
    intField "NotZero" [("mytag", "valmin:4 valmax:6")] notZero;
    intField "OnlyMin" [("mytag", "valmin:3")] onlyMin;
    intField "OnlyMax" [("mytag", "valmax:7")] onlyMax ].

Definition Test4 (primaryEmail : string) : list StructField :=
  [ stringField "PrimaryEmail" [] primaryEmail ].

(** [&ValidationOptions{}] *)
Definition noOptions : ValidationOptions := mkOptions ∅ ∅ "" false ∅.


(** "req valmin:18 valmax:150", the declaration of [Age]. *)
Definition ageValidation : FieldValidation :=
  mkFieldValidation (-1) (-1) 18 150 None Required.


(** A validation whose only constraint is the pattern. *)
Definition patternValidation (pattern : string) : FieldValidation :=
  mkFieldValidation (-1) (-1) 0 0 (Some (compiled pattern)) 0.

(** [Step interval `validation:"valmin:5"`] for [type interval int]. *)
Definition stepField : StructField :=
  mkField "Step" (mkType "interval" "main.interval" Int)
    [("validation", "valmin:5")] 3.

(** [Country Country `validation:"req lenmin:2"`] for
    [type Country string], left empty. *)
Definition countryField : StructField :=
  mkField "Country" (mkType "Country" "main.Country" String_)
    [("validation", "req lenmin:2")] "".

(** A regexp tag with an unclosed class. *)
Definition brokenField : StructField :=
  stringField "PostCode"
    [("validation", "req"); ("validation_regexp", "^[0-9")] "43-155".

(** A pattern in the declaration and another in the regexp tag. *)
Definition twoPatterns (s : string) : StructField :=
  stringField "Code"
    [("validation", "regexp:^a$"); ("validation_regexp", "^b$")] s.

(** [RestrictFields] of [TestWithInvalidValuesAndFieldRestriction]. *)
Definition twoNames : ValidationOptions :=
  mkOptions {[ "FirstName" := true; "LastName" := true ]} ∅ "" false ∅.

(** The options of [TestWithOverwrittenValues]. *)
Definition threeOverwritten : ValidationOptions :=
  mkOptions {[ "FirstName" := true; "LastName" := true; "Age" := true ]}
    ∅ "" false
    {[ "FirstName" := ofString "123456"; "LastName" := ofString "123";
       "Age" := ofInt 300 ]}.

(** [RestrictFields] naming no field of [Test4]. *)
Definition otherName : ValidationOptions :=
  mkOptions {[ "Other" := true ]} ∅ "" false ∅.

(** A [nil] entry in [OverwriteFieldValues]. *)
Definition nilValue : ValidationOptions :=
  mkOptions ∅ ∅ "" false {[ "PrimaryEmail" := ZeroValue ]}.


(** [type internalID string]. *)
Definition internalID : rtype := mkType "internalID" "main.internalID" String_.

(** * Properties *)

Section Properties.
Context {engine : RegexpEngine}.

(** ** What [validateValue] computes, by the type name of the value *)

Lemma prefix_int_not_string (name : string) :
  HasPrefix name "int" = true -> String.eqb name "string" = false.
Proof.
  intros H. destruct (String.eqb_spec name "string") as [->|]; [|reflexivity].
  discriminate H.
Qed.

Ltac step_checks := cbn [andb orb negb bind and_then].

(** A signed integer whose type name starts with "int": the zero check of a
    required field, then the two bounds. *)
Lemma validateValue_signed (name printed : string) (k : SignedKind) (n : Z)
  (v : FieldValidation) :
  HasPrefix name "int" = true ->
  validateValue (signedValue name printed k n) v =
  Return
    (if has_flag v Required && (n =? 0)
        && negb (minIsMeaningfulZero v) && negb (maxIsMeaningfulZero v)
        && (valMin v =? 0) && (valMax v =? 0)
     then (false, FailZero)
     else if lowerBoundActive v && (valMin v >? n) then (false, FailValMin)
     else if upperBoundActive v && (valMax v <? n) then (false, FailValMax)
     else (true, 0)).
Proof.
  intros Hint. pose proof (prefix_int_not_string _ Hint) as Hstr.
  unfold validateValue, lowerBoundActive, upperBoundActive,
    minIsMeaningfulZero, maxIsMeaningfulZero.
  destruct k; cbn [signedValue Value_Type Value_Int tName tKind bind and_then];
    rewrite ?Hstr, ?Hint; step_checks;
    destruct (has_flag v Required); step_checks;
    destruct (n =? 0); step_checks;
    destruct (has_flag v ValMinNotNil), (has_flag v ValMaxNotNil); step_checks;
    destruct (valMin v =? 0), (valMax v =? 0); step_checks;
    rewrite ?Hstr, ?Hint; step_checks;
    try destruct (valMin v >? n); step_checks;
    try destruct (valMax v <? n); reflexivity.
Qed.

(** A value of the predeclared type [string]: the checks in their order. *)
Lemma validateValue_string (s : string) (v : FieldValidation) :
  validateValue (ofString s) v =
  if has_flag v Required && String.eqb s "" then Return (false, FailEmpty)
  else if (lenMin v >? 0) && (len s <? lenMin v) then Return (false, FailLenMin)
  else if (lenMax v >? 0) && (len s >? lenMax v) then Return (false, FailLenMax)
  else if match regexp v with
          | Some re => negb (MatchString re s)
          | None => false
          end
  then Return (false, FailRegexp)
  else if has_flag v Email then
    do emailRegex <- MustCompile emailPattern;
    if negb (MatchString emailRegex s) then Return (false, FailEmail)
    else Return (true, 0)
  else Return (true, 0).
Proof.
  unfold validateValue, len, ofString.
  cbn [Value_Type Value_String stringType tName tKind bind].
  change (String.eqb "string" "string") with true.
  change (HasPrefix "string" "int") with false.
  destruct (has_flag v Required); step_checks;
    [destruct (String.eqb s ""); step_checks; [reflexivity|] |];
    (destruct ((lenMin v >? 0) && (Z.of_nat (String.length s) <? lenMin v));
     [reflexivity|];
     destruct ((lenMax v >? 0) && (Z.of_nat (String.length s) >? lenMax v));
     [reflexivity|];
     destruct (match regexp v with
               | Some re => negb (MatchString re s)
               | None => false
               end); [reflexivity|];
     destruct (has_flag v Email); [|reflexivity];
     destruct (MustCompile emailPattern) as [re|]; step_checks; [|reflexivity];
     destruct (negb (MatchString re s)); reflexivity).
Qed.

(** Any other type name: no check applies. *)
Lemma validateValue_other (t : rtype) (p : payload (tKind t))
  (v : FieldValidation) :
  String.eqb (tName t) "string" = false ->
  HasPrefix (tName t) "int" = false ->
  validateValue (MkValue t p) v = Return (true, 0).
Proof.
  intros Hstr Hint. unfold validateValue.
  cbn [Value_Type bind]. rewrite Hstr, Hint.
  destruct (has_flag v Required); reflexivity.
Qed.

(** The unsigned kinds pass [isNotInt], but "uint..." does not start with
    "int": nothing is checked, whatever the validation. *)
Lemma unsigned_values_are_not_checked (k : UnsignedKind) (n : Z)
  (v : FieldValidation) :
  validateValue (uintValue k n) v = Return (true, 0).
Proof. destruct k; apply validateValue_other; reflexivity. Qed.

Lemma land_lor_same (f b : Z) : Z.land (Z.lor f b) b = b.
Proof.
  apply Z.bits_inj'. intros i _.
  rewrite Z.land_spec, Z.lor_spec.
  destruct (Z.testbit f i), (Z.testbit b i); reflexivity.
Qed.

Lemma has_flag_or_flag (v : FieldValidation) (bit : Z) :
  0 < bit -> has_flag (or_flag v bit) bit = true.
Proof.
  intros Hbit. unfold has_flag, or_flag, set_flags. cbn [flags].
  rewrite land_lor_same. apply Z.gtb_lt. lia.
Qed.

Lemma signed_prefix (k : SignedKind) : HasPrefix (signedName k) "int" = true.
Proof. destruct k; reflexivity. Qed.

(** ** C8 *)

(** C8: the validation of lines 79-81, with nothing declared (both lengths at
    -1, both bounds 0, no pattern, no flag), passes every value, whatever its
    type and content, with failure code 0. *)
Theorem C8_empty_validation_passes (t : rtype) (p : payload (tKind t)) :
  validateValue (MkValue t p) newValidation = Return (true, 0).
Proof.
  unfold validateValue.
  change (has_flag newValidation Required) with false.
  change (has_flag newValidation Email) with false.
  change (has_flag newValidation ValMinNotNil) with false.
  change (has_flag newValidation ValMaxNotNil) with false.
  cbn [Value_Type bind newValidation lenMin lenMax valMin valMax regexp].
  destruct (String.eqb (tName t) "string"); cbn [andb bind];
    destruct (HasPrefix (tName t) "int"); reflexivity.
Qed.

(** ** C1 *)


(** ** C4 *)


(** ** C5 *)

Lemma parse_valmin_zero (v0 : FieldValidation) :
  setValidationFromTag v0 "valmin:0"
  = Return (or_flag (set_valMin v0 0) ValMinNotNil).
Proof. reflexivity. Qed.

Lemma parse_valmax_zero (v0 : FieldValidation) :
  setValidationFromTag v0 "valmax:0"
  = Return (or_flag (set_valMax v0 0) ValMaxNotNil).
Proof. reflexivity. Qed.

(** C5: parsing "valmin:0" (resp. "valmax:0") into any validation sets the
    bound to 0 and the flag [ValMinNotNil] (resp. [ValMaxNotNil]).  A field
    of a predeclared signed integer type declared "valmin:0 valmax:0" passes
    with value 0, fails [FailValMin] with -1 and [FailValMax] with 1.
    Declared "valmax:5" only, its lower bound is not active, no value fails
    [FailValMin], and 0 passes. *)
Theorem C5_zero_bounds (k : SignedKind) :
  (forall v0, exists v,
      setValidationFromTag v0 "valmin:0" = Return v
      /\ minIsMeaningfulZero v = true /\ valMin v = 0)
  /\ (forall v0, exists v,
      setValidationFromTag v0 "valmax:0" = Return v
      /\ maxIsMeaningfulZero v = true /\ valMax v = 0)
  /\ evaluateDeclared "valmin:0 valmax:0" (intValue k 0) = Return (true, 0)
  /\ evaluateDeclared "valmin:0 valmax:0" (intValue k (-1))
     = Return (false, FailValMin)
  /\ evaluateDeclared "valmin:0 valmax:0" (intValue k 1)
     = Return (false, FailValMax)
  /\ (exists v, setValidationFromTag newValidation "valmax:5" = Return v
               /\ lowerBoundActive v = false)
  /\ (forall n, evaluateDeclared "valmax:5" (intValue k n)
               <> Return (false, FailValMin))
  /\ evaluateDeclared "valmax:5" (intValue k 0) = Return (true, 0).
Proof.
  pose proof (signed_prefix k) as Hint.
  assert (Hboth : setValidationFromTag newValidation "valmin:0 valmax:0"
                  = Return (mkFieldValidation (-1) (-1) 0 0 None 6))
    by reflexivity.
  assert (Hmax : setValidationFromTag newValidation "valmax:5"
                 = Return (mkFieldValidation (-1) (-1) 0 5 None 0))
    by reflexivity.
  repeat split.
  - intros v0. eexists. split; [apply parse_valmin_zero|]. split.
    + apply has_flag_or_flag. reflexivity.
    + reflexivity.
  - intros v0. eexists. split; [apply parse_valmax_zero|]. split.
    + apply has_flag_or_flag. reflexivity.
    + reflexivity.
  - unfold evaluateDeclared, intValue. rewrite Hboth. cbn [bind].
    rewrite (validateValue_signed _ _ _ _ _ Hint). reflexivity.
  - unfold evaluateDeclared, intValue. rewrite Hboth. cbn [bind].
    rewrite (validateValue_signed _ _ _ _ _ Hint). reflexivity.
  - unfold evaluateDeclared, intValue. rewrite Hboth. cbn [bind].
    rewrite (validateValue_signed _ _ _ _ _ Hint). reflexivity.
  - eexists. split; [exact Hmax | reflexivity].
  - intros n. unfold evaluateDeclared, intValue. rewrite Hmax. cbn [bind].
    rewrite (validateValue_signed _ _ _ _ _ Hint).
    change (has_flag (mkFieldValidation (-1) (-1) 0 5 None 0) Required)
      with false.
    change (lowerBoundActive (mkFieldValidation (-1) (-1) 0 5 None 0))
      with false.
    cbn [andb].
    destruct (upperBoundActive _ && _); intros H; discriminate H.
  - unfold evaluateDeclared, intValue. rewrite Hmax. cbn [bind].
    rewrite (validateValue_signed _ _ _ _ _ Hint). reflexivity.
Qed.

(** ** C2 *)

(** C2 (amended): for a value of the predeclared type [string] and a
    validation with a pattern, [validateValue] fails with [FailRegexp]
    exactly when [MatchString] finds no match in the string (a search, not a
    match of the whole string) and none of the earlier checks fails: the
    required check, the minimal and the maximal length. *)
Theorem C2_regexp_check (s : string) (v : FieldValidation) (re : Regexp) :
  regexp v = Some re ->
  (validateValue (ofString s) v = Return (false, FailRegexp)
   <-> MatchString re s = false
       /\ ~ (has_flag v Required = true /\ s = "")
       /\ ~ (0 < lenMin v /\ len s < lenMin v)
       /\ ~ (0 < lenMax v /\ lenMax v < len s)).
Proof.
  intros Hre. rewrite validateValue_string, Hre.
  destruct (has_flag v Required && String.eqb s "") eqn:Ereq.
  { split; [intros H; discriminate H|]. intros (_ & Hn & _). exfalso.
    apply andb_true_iff in Ereq as [Hr Hs]. apply Hn. split; [exact Hr|].
    apply String.eqb_eq, Hs. }
  assert (Hreq : ~ (has_flag v Required = true /\ s = "")).
  { intros [Hr ->]. rewrite Hr in Ereq. discriminate Ereq. }
  destruct ((lenMin v >? 0) && (len s <? lenMin v)) eqn:Emin.
  { split; [intros H; discriminate H|]. intros (_ & _ & Hn & _). exfalso.
    apply andb_true_iff in Emin as [Ha Hb]. apply Hn.
    apply Z.gtb_lt in Ha. apply Z.ltb_lt in Hb. lia. }
  assert (Hmin : ~ (0 < lenMin v /\ len s < lenMin v)).
  { intros [Ha Hb]. apply Z.gtb_lt in Ha. apply Z.ltb_lt in Hb.
    rewrite Ha, Hb in Emin. discriminate Emin. }
  destruct ((lenMax v >? 0) && (len s >? lenMax v)) eqn:Emax.
  { split; [intros H; discriminate H|]. intros (_ & _ & _ & Hn). exfalso.
    apply andb_true_iff in Emax as [Ha Hb]. apply Hn.
    apply Z.gtb_lt in Ha. apply Z.gtb_lt in Hb. lia. }
  assert (Hmax : ~ (0 < lenMax v /\ lenMax v < len s)).
  { intros [Ha Hb]. apply Z.gtb_lt in Ha. apply Z.gtb_lt in Hb.
    rewrite Ha, Hb in Emax. discriminate Emax. }
  destruct (MatchString re s); cbn [negb].
  - split; [|intros [H _]; discriminate H].
    destruct (has_flag v Email); [|intros H; discriminate H].
    destruct (MustCompile emailPattern) as [ere|]; cbn [bind];
      [|intros H; discriminate H].
    destruct (negb (MatchString ere s)); intros H; discriminate H.
  - split; [intros _; repeat split; assumption | reflexivity].
Qed.

(** ** C3 *)

(** "lenmax:0" is parsed into [lenMax = 0], which the guard [lenMax > 0] of
    line 152 leaves unenforced: every string passes. *)
Lemma lenmax_zero_is_not_enforced (s : string) :
  setValidationFromTag newValidation "lenmax:0"
  = Return (set_lenMax newValidation 0)
  /\ evaluateDeclared "lenmax:0" (ofString s) = Return (true, 0).
Proof.
  split; [reflexivity|].
  unfold evaluateDeclared.
  change (setValidationFromTag newValidation "lenmax:0")
    with (Return (set_lenMax newValidation 0)).
  cbn [bind]. rewrite validateValue_string.
  change (has_flag (set_lenMax newValidation 0) Required) with false.
  change (has_flag (set_lenMax newValidation 0) Email) with false.
  reflexivity.
Qed.


(** ** C10 *)

(** C10 (amended): a field of string or integer kind whose type name is
    neither "string" nor starts with "int" is not filtered out by its kind,
    and its own value passes [validateValue] under every validation; when
    the field is not excluded by [RestrictFields], its patterns compile and
    its value is read from the struct, the loop body leaves the result
    unchanged. *)
Theorem C10_other_type_names_pass (fs : list StructField)
  (options : option ValidationOptions) (tagName : string)
  (st : bool * gmap string Z) (f : StructField) (v : FieldValidation) :
  isNotInt (tKind (fType f)) || isNotString (tKind (fType f)) = true ->
  String.eqb (tName (fType f)) "string" = false ->
  HasPrefix (tName (fType f)) "int" = false ->
  filteredOut f = false
  /\ (forall v', validateValue (MkValue (fType f) (fValue f)) v'
                 = Return (true, 0))
  /\ (restrictedOut options f = false ->
      fieldValidation options tagName f = Return v ->
      valueOverwritten options f = false ->
      FieldByName fs (fName f) = MkValue (fType f) (fValue f) ->
      validateField (StructPointer fs) options tagName st f = Return st).
Proof.
  intros Hkind Hstr Hint.
  assert (Hfilter : filteredOut f = false).
  { unfold filteredOut.
    destruct (isNotInt (tKind (fType f))); [reflexivity|].
    cbn [orb] in Hkind. rewrite Hkind. reflexivity. }
  split; [exact Hfilter|]. split.
  - intros v'. apply validateValue_other; assumption.
  - intros Hrestr Hval Hover Hfield.
    unfold validateField, skipped, fieldValueOf.
    rewrite Hrestr, Hfilter, Hval, Hover. cbn [orb bind Value_Elem].
    rewrite Hfield, (validateValue_other _ _ _ Hstr Hint). reflexivity.
Qed.

(** ** Panics of the loops *)

(** A loop whose body panics at one of its elements, whatever the state,
    panics (there, or earlier). *)
Lemma foldM_panics {A S : Type} (body : S -> A -> result S) (l : list A)
  (a : A) :
  In a l ->
  (forall s, exists p, body s a = Panic p) ->
  forall s, exists p, foldM body l s = Panic p.
Proof.
  intros Hin Hbody. induction l as [|a0 l IH]; [destruct Hin|].
  intros s. cbn [foldM].
  destruct Hin as [-> | Hin].
  - destruct (Hbody s) as [p ->]. exists p. reflexivity.
  - destruct (body s a0) as [s'|p]; cbn [bind].
    + apply IH, Hin.
    + exists p. reflexivity.
Qed.

(** A token "regexp:<pattern>" whose pattern does not compile makes
    [setValidationFromTag] panic. *)
Lemma setOpt_malformed (pattern : string) (v : FieldValidation) :
  Compile pattern = None ->
  setOpt v ("regexp:" +:+ pattern) = Panic (RegexpCompileError pattern).
Proof.
  intros Hbad. set (opt := "regexp:" +:+ pattern).
  assert (Hreq : String.eqb opt "req" = false) by reflexivity.
  assert (Hemail : String.eqb opt "email" = false) by reflexivity.
  assert (H1 : HasPrefix opt ("lenmin" +:+ ":") = false) by reflexivity.
  assert (H2 : HasPrefix opt ("lenmax" +:+ ":") = false) by reflexivity.
  assert (H3 : HasPrefix opt ("valmin" +:+ ":") = false) by reflexivity.
  assert (H4 : HasPrefix opt ("valmax" +:+ ":") = false) by reflexivity.
  assert (H5 : HasPrefix opt ("regexp" +:+ ":") = true)
    by (subst opt; destruct pattern; reflexivity).
  assert (H6 : Replace1 opt ("regexp" +:+ ":") "" = pattern)
    by (subst opt; destruct pattern; reflexivity).
  unfold setOpt, valOpts. rewrite Hreq, Hemail. cbn [foldM].
  unfold setValOpt. rewrite H1, H2, H3, H4, H5, H6. cbn [bind].
  unfold MustCompile. rewrite Hbad. reflexivity.
Qed.

Lemma setValidationFromTag_malformed (tag pattern : string)
  (v : FieldValidation) :
  In ("regexp:" +:+ pattern) (SplitN_space tag) ->
  Compile pattern = None ->
  exists p, setValidationFromTag v tag = Panic p.
Proof.
  intros Hin Hbad. unfold setValidationFromTag.
  apply (foldM_panics _ _ _ Hin).
  intros s. eexists. apply setOpt_malformed, Hbad.
Qed.

(** The panics of a loop are panics of its body. *)
Lemma foldM_panic_inv {A S : Type} (body : S -> A -> result S)
  (P : panic -> Prop) (l : list A) :
  (forall s a p, body s a = Panic p -> P p) ->
  forall s p, foldM body l s = Panic p -> P p.
Proof.
  intros Hbody. induction l as [|a l IH]; intros s p; cbn [foldM].
  - intros H. discriminate H.
  - destruct (body s a) as [s'|p'] eqn:E; cbn [bind].
    + apply IH.
    + intros H. injection H as <-. exact (Hbody _ _ _ E).
Qed.

(** Parsing a declaration panics only in [regexp.MustCompile]. *)
Lemma setValidationFromTag_panic (tag : string) (v : FieldValidation)
  (p : panic) :
  setValidationFromTag v tag = Panic p ->
  exists pattern, p = RegexpCompileError pattern /\ Compile pattern = None.
Proof.
  unfold setValidationFromTag.
  apply (foldM_panic_inv setOpt
           (fun p => exists pattern,
                p = RegexpCompileError pattern /\ Compile pattern = None)).
  intros s opt p'. unfold setOpt.
  apply (foldM_panic_inv (setValOpt opt)
           (fun p => exists pattern,
                p = RegexpCompileError pattern /\ Compile pattern = None)).
  intros s' valOpt p''. unfold setValOpt, MustCompile.
  repeat match goal with
         | |- context [if ?b then _ else _] => destruct b
         | |- context [match Atoi ?x with _ => _ end] => destruct (Atoi x)
         end; cbn [bind]; try (intros H; discriminate H).
  destruct (Compile _) as [re|] eqn:E; cbn [bind]; intros H;
    [discriminate H|].
  injection H as <-. eexists. split; [reflexivity | exact E].
Qed.

(** ** C6 *)

(** C6: when a field that the loop does not skip has, in its declaration or
    in the override that replaces it, a "regexp:" token or a regexp tag whose
    pattern does not compile, the resolution of its validation panics in
    [regexp.MustCompile], and [Validate] panics: it returns neither a
    boolean nor a map of failed fields. *)
Theorem C6_malformed_pattern_panics (obj : object)
  (options : option ValidationOptions) (f : StructField) (pattern : string) :
  In f (fieldsOf obj) ->
  skipped options f = false ->
  Compile pattern = None ->
  In ("regexp:" +:+ pattern)
     (SplitN_space (fst (tagValues options (tagNameOf options) f)))
  \/ (pattern <> "" /\ snd (tagValues options (tagNameOf options) f) = pattern) ->
  (exists bad, fieldValidation options (tagNameOf options) f
               = Panic (RegexpCompileError bad) /\ Compile bad = None)
  /\ (exists p, Validate obj options = Panic p)
  /\ (forall valid invalidFields,
        Validate obj options <> Return (valid, invalidFields)).
Proof.
  intros Hin Hskip Hbad Hwhere.
  assert (Hres : exists bad, fieldValidation options (tagNameOf options) f
                             = Panic (RegexpCompileError bad)
                             /\ Compile bad = None).
  { unfold fieldValidation.
    destruct (tagValues options (tagNameOf options) f) as [tagVal tagRegexpVal].
    cbn [fst snd] in Hwhere.
    destruct (setValidationFromTag newValidation tagVal) as [v|p] eqn:E;
      cbn [bind].
    - destruct Hwhere as [Htok | [Hne ->]].
      + destruct (setValidationFromTag_malformed _ _ newValidation Htok Hbad)
          as [p Hp]. rewrite Hp in E. discriminate E.
      + destruct (String.eqb_spec pattern "") as [-> | _];
          [contradiction|]. cbn [negb].
        unfold MustCompile. rewrite Hbad. cbn [bind].
        exists pattern. split; [reflexivity | exact Hbad].
    - destruct (setValidationFromTag_panic _ _ _ E) as (bad & -> & Hc).
      exists bad. split; [reflexivity | exact Hc]. }
  assert (Hpanic : exists p, Validate obj options = Panic p).
  { unfold Validate. apply (foldM_panics _ _ _ Hin).
    intros st. unfold validateField. rewrite Hskip.
    destruct Hres as (bad & -> & _). eexists. reflexivity. }
  split; [exact Hres|]. split; [exact Hpanic|].
  intros valid invalidFields H. destruct Hpanic as [p Hp].
  rewrite Hp in H. discriminate H.
Qed.

(** ** C7 *)

(** C7: when the primary declaration parses (with or without a "regexp:"
    token of its own) and the regexp tag is not empty and compiles, the
    validation of the field is resolved and its pattern is the one of the
    regexp tag. *)
Theorem C7_regexp_tag_wins (options : option ValidationOptions)
  (tagName : string) (f : StructField) (v0 : FieldValidation) (re : Regexp) :
  setValidationFromTag newValidation (fst (tagValues options tagName f))
  = Return v0 ->
  snd (tagValues options tagName f) <> "" ->
  Compile (snd (tagValues options tagName f)) = Some re ->
  exists v, fieldValidation options tagName f = Return v
            /\ regexp v = Some re.
Proof.
  intros Hparse Hne Hre. unfold fieldValidation.
  destruct (tagValues options tagName f) as [tagVal tagRegexpVal].
  cbn [fst snd] in *. rewrite Hparse. cbn [bind].
  destruct (String.eqb_spec tagRegexpVal "") as [-> | _]; [contradiction|].
  cbn [negb]. unfold MustCompile. rewrite Hre. cbn [bind].
  destruct (with_options options ValidateWhenSuffix).
  - eexists. split; [reflexivity|].
    repeat match goal with
           | |- context [if ?b then _ else _] => destruct b
           end; reflexivity.
  - eexists. split; reflexivity.
Qed.

(** ** C9 *)

Lemma isKeyInMap_lookup (k : string) (m : gmap string Value) :
  isKeyInMap k m = true <-> is_Some (m !! k).
Proof.
  unfold isKeyInMap. rewrite existsb_exists. split.
  - intros (key & Hin & Heq). apply String.eqb_eq in Heq. subst key.
    apply in_map_iff in Hin as ([k' x] & Hk & Hin). cbn [fst] in Hk. subst k'.
    apply list_elem_of_In, elem_of_map_to_list in Hin. eauto.
  - intros [x Hx]. exists k. split; [|apply String.eqb_refl].
    apply in_map_iff. exists (k, x). split; [reflexivity|].
    apply list_elem_of_In, elem_of_map_to_list, Hx.
Qed.

Lemma not_overwritten (options : option ValidationOptions) (f : StructField) :
  (forall o, options = Some o -> OverwriteFieldValues o !! fName f = None) ->
  valueOverwritten options f = false.
Proof.
  intros Habsent. unfold valueOverwritten, with_options.
  destruct options as [o|]; [|reflexivity].
  destruct (isKeyInMap (fName f) (OverwriteFieldValues o)) eqn:E;
    [|apply andb_false_r].
  apply isKeyInMap_lookup in E. rewrite (Habsent o eq_refl) in E.
  destruct E as [x Hx]. discriminate Hx.
Qed.

(** C9: for a struct passed by value, a field that the loop does not skip
    and that has no entry in [OverwriteFieldValues] makes the read of its
    value panic in [reflect.Value.Elem], and [Validate] panics; so when
    [Validate] returns, every field that is not skipped has an entry in
    [OverwriteFieldValues]. *)
Theorem C9_struct_by_value (fs : list StructField)
  (options : option ValidationOptions) :
  (forall f, In f fs -> skipped options f = false ->
     (forall o, options = Some o -> OverwriteFieldValues o !! fName f = None) ->
     fieldValueOf (StructValue fs) options f
     = Panic (ValueError "reflect.Value.Elem" Struct)
     /\ exists p, Validate (StructValue fs) options = Panic p)
  /\ (forall r, Validate (StructValue fs) options = Return r ->
      forall f, In f fs -> skipped options f = false ->
      exists o, options = Some o
                /\ is_Some (OverwriteFieldValues o !! fName f)).
Proof.
  assert (Hfirst : forall f, In f fs -> skipped options f = false ->
     (forall o, options = Some o -> OverwriteFieldValues o !! fName f = None) ->
     fieldValueOf (StructValue fs) options f
     = Panic (ValueError "reflect.Value.Elem" Struct)
     /\ exists p, Validate (StructValue fs) options = Panic p).
  { intros f Hin Hskip Habsent.
    assert (Hread : fieldValueOf (StructValue fs) options f
                    = Panic (ValueError "reflect.Value.Elem" Struct)).
    { unfold fieldValueOf. rewrite (not_overwritten _ _ Habsent). reflexivity. }
    split; [exact Hread|].
    unfold Validate. cbn [fieldsOf]. apply (foldM_panics _ _ _ Hin).
    intros st. unfold validateField. rewrite Hskip.
    destruct (fieldValidation options (tagNameOf options) f) as [v|p];
      cbn [bind]; [|eexists; reflexivity].
    rewrite Hread. eexists. reflexivity. }
  split; [exact Hfirst|].
  intros r Hret f Hin Hskip.
  destruct options as [o|].
  - destruct (OverwriteFieldValues o !! fName f) as [x|] eqn:E.
    + exists o. split; [reflexivity|]. rewrite E. eauto.
    + exfalso. destruct (Hfirst f Hin Hskip) as [_ [p Hp]].
      * intros o' Ho'. injection Ho' as <-. exact E.
      * rewrite Hp in Hret. discriminate Hret.
  - exfalso. destruct (Hfirst f Hin Hskip) as [_ [p Hp]].
    + intros o' Ho'. discriminate Ho'.
    + rewrite Hp in Hret. discriminate Hret.
Qed.

End Properties.

(** * The test suite and the examples, on the reference engine *)

(** ** The tests of [validator_test.go] *)

Example TestWithDefaultValues :
  Validate (StructPointer (Test1 "validation" "" "" 0 0 "" "" 0 0 "" ""))
           (Some noOptions)
  = Return (false,
            {[ "FirstName" := FailEmpty; "LastName" := FailEmpty;
               "Age" := FailValMin; "PostCode" := FailEmpty;
               "Email" := FailEmpty; "Country" := FailRegexp;
               "BelowZero" := FailValMax ]}).
Proof. vm_compute. reflexivity. Qed.

Example TestWithInvalidValues :
  Validate (StructPointer (invalidTest1 "validation")) (Some noOptions)
  = Return (false,
            {[ "FirstName" := FailLenMax; "LastName" := FailLenMin;
               "Age" := FailValMin; "PostCode" := FailRegexp;
               "Email" := FailEmail; "BelowZero" := FailValMax;
               "DiscountPrice" := FailValMax; "Country" := FailRegexp ]}).
Proof. vm_compute. reflexivity. Qed.

Example TestWithValidValues :
  Validate (StructPointer
              (Test1 "validation" "Johnny" "Smith" 35 0 "43-155"
                 "john@example.com" (-4) 8000 "GB" "Enfield"))
           (Some noOptions)
  = Return (true, ∅).
Proof. vm_compute. reflexivity. Qed.

Example TestWithInvalidValuesAndFieldRestrictionAndOverwrittenFieldTags :
  Validate (StructPointer (invalidTest1 "validation"))
    (Some (mkOptions {[ "FirstName" := true; "LastName" := true ]}
             {[ "FirstName" := {[ "validation" := "req lenmin:4 lenmax:100" ]} ]}
             "" false ∅))
  = Return (false, {[ "LastName" := FailLenMin ]}).
Proof. vm_compute. reflexivity. Qed.

Example TestWithInvalidValuesAndOverwrittenTagName :
  Validate (StructPointer (invalidTest1 "mytag"))
    (Some (mkOptions ∅ ∅ "mytag" false ∅))
  = Return (false,
            {[ "FirstName" := FailLenMax; "LastName" := FailLenMin;
               "Age" := FailValMin; "PostCode" := FailRegexp;
               "Email" := FailEmail; "BelowZero" := FailValMax;
               "DiscountPrice" := FailValMax; "Country" := FailRegexp ]}).
Proof. vm_compute. reflexivity. Qed.

Example TestValMinMaxWithInvalid :
  Validate (StructPointer (Test3 (-4) (-6) (-6) 2 (-5) (-6)))
    (Some (mkOptions ∅ ∅ "mytag" false ∅))
  = Return (false,
            {[ "ZeroMin" := FailValMin; "ZeroBoth" := FailValMin;
               "NotZero" := FailValMin; "OnlyMin" := FailValMin ]}).
Proof. vm_compute. reflexivity. Qed.

Example TestWithInvalidValuesWithSuffixValidation :
  Validate (StructPointer (Test4 "invalidemail"))
    (Some (mkOptions ∅ ∅ "" true ∅))
  = Return (false, {[ "PrimaryEmail" := FailEmail ]})
  /\ Validate (StructPointer (Test4 "invalidemail"))
       (Some (mkOptions ∅ ∅ "" false ∅))
     = Return (true, ∅).
Proof. split; vm_compute; reflexivity. Qed.

Example TestWithOverwrittenValues :
  Validate (StructPointer (invalidTest1 "validation"))
    (Some (mkOptions
             {[ "FirstName" := true; "LastName" := true; "Age" := true ]}
             ∅ "" false
             {[ "FirstName" := ofString "123456";
                "LastName" := ofString "123";
                "Age" := ofInt 300 ]}))
  = Return (false, {[ "Age" := FailValMax ]}).
Proof. vm_compute. reflexivity. Qed.

(** ** C1 on examples *)



(** ** C2 on examples *)

(** "a1b" contains a digit but is not one: the pattern "[0-9]" does not
    match the whole string, and the check passes. *)
Lemma C2_counterexample :
  Compile "[0-9]" = Some (compiled "[0-9]")
  /\ RE2.fullMatch (compiled "[0-9]") "a1b" = false
  /\ MatchString (compiled "[0-9]") "a1b" = true
  /\ validateValue (ofString "a1b") (patternValidation "[0-9]")
     = Return (true, 0).
Proof. repeat split; vm_compute; reflexivity. Qed.

Lemma C2_witness :
  validateValue (ofString "AA123")
    (patternValidation "^[0-9][0-9]-[0-9][0-9][0-9]$")
  = Return (false, FailRegexp).
Proof.
  apply (C2_regexp_check "AA123"
           (patternValidation "^[0-9][0-9]-[0-9][0-9][0-9]$")
           (compiled "^[0-9][0-9]-[0-9][0-9][0-9]$") eq_refl).
  split; [vm_compute; reflexivity|].
  repeat split; intros [H _]; discriminate H.
Defined.

(** ** C3 on examples *)



(** ** C4 on an example *)


(** ** C6 on an example *)

Lemma C6_witness :
  Compile "^[0-9" = None
  /\ (exists p, Validate (StructPointer [brokenField]) None = Panic p)
  /\ (forall valid invalidFields,
        Validate (StructPointer [brokenField]) None
        <> Return (valid, invalidFields)).
Proof.
  split; [reflexivity|].
  apply (C6_malformed_pattern_panics (StructPointer [brokenField]) None
           brokenField "^[0-9").
  - left. reflexivity.
  - reflexivity.
  - reflexivity.
  - right. split; [intros H; discriminate H | reflexivity].
Defined.

(** ** C7 on an example *)

Lemma C7_witness :
  exists v, fieldValidation None "validation" (twoPatterns "a") = Return v
            /\ regexp v = Some (compiled "^b$").
Proof.
  apply (@C7_regexp_tag_wins RE2_engine None "validation" (twoPatterns "a")
           (patternValidation "^a$") (compiled "^b$")).
  - reflexivity.
  - intros H. discriminate H.
  - reflexivity.
Defined.

(** The string "a" matches the pattern of the declaration and fails, "b"
    matches the one of the regexp tag and passes. *)
Example regexp_tag_is_the_one_evaluated :
  Validate (StructPointer [twoPatterns "a"]) None
  = Return (false, {[ "Code" := FailRegexp ]})
  /\ Validate (StructPointer [twoPatterns "b"]) None = Return (true, ∅).
Proof. split; vm_compute; reflexivity. Qed.

(** ** C9 on examples *)

Lemma C9_witness :
  (exists p, Validate (StructValue (invalidTest1 "validation")) None = Panic p)
  /\ fieldValueOf (StructValue (invalidTest1 "validation")) None
       (stringField "FirstName" [("validation", "req lenmin:5 lenmax:25")]
          "123456789012345678901234567890")
     = Panic (ValueError "reflect.Value.Elem" Struct).
Proof.
  destruct (proj1 (C9_struct_by_value (invalidTest1 "validation") None)
              (stringField "FirstName"
                 [("validation", "req lenmin:5 lenmax:25")]
                 "123456789012345678901234567890"))
    as [Hread Hpanic].
  - left. reflexivity.
  - reflexivity.
  - intros o H. discriminate H.
  - split; [exact Hpanic | exact Hread].
Defined.

(** By value, with every validated field overwritten, [Validate] returns. *)
Example struct_by_value_with_overwritten_values :
  Validate (StructValue (invalidTest1 "validation"))
    (Some (mkOptions
             {[ "FirstName" := true; "LastName" := true; "Age" := true ]}
             ∅ "" false
             {[ "FirstName" := ofString "123456";
                "LastName" := ofString "123";
                "Age" := ofInt 300 ]}))
  = Return (false, {[ "Age" := FailValMax ]}).
Proof. vm_compute. reflexivity. Qed.

(** ** C10 on examples *)

(** [type interval int]: the name starts with "int", the bound is checked. *)
Lemma C10_counterexample :
  filteredOut stepField = false
  /\ String.eqb (tName (fType stepField)) "int" = false
  /\ Validate (StructPointer [stepField]) None
     = Return (false, {[ "Step" := FailValMin ]}).
Proof. repeat split; vm_compute; reflexivity. Qed.

Lemma C10_witness :
  validateField (StructPointer [countryField]) None "validation" (true, ∅)
    countryField
  = Return (true, ∅).
Proof.
  apply (C10_other_type_names_pass [countryField] None "validation" (true, ∅)
           countryField (mkFieldValidation 2 (-1) 0 0 None Required));
    reflexivity.
Defined.

(** An unsigned field is a candidate, and its bound is not checked. *)
Example unsigned_field_passes :
  Validate
    (StructPointer [mkField "Count" uintType [("validation", "valmin:5")] 3])
    None
  = Return (true, ∅).
Proof. vm_compute. reflexivity. Qed.

(** * Further properties of the package *)

Section Loops.
Context {engine : RegexpEngine}.

(** ** Loops *)

Lemma foldM_app {A S : Type} (body : S -> A -> result S) (l1 l2 : list A)
  (s : S) :
  foldM body (l1 ++ l2) s = do s' <- foldM body l1 s; foldM body l2 s'.
Proof.
  revert s. induction l1 as [|a l1 IH]; intros s; cbn [foldM app bind].
  - reflexivity.
  - destruct (body s a) as [s'|p]; cbn [bind]; [apply IH | reflexivity].
Qed.

Lemma foldM_ext {A S : Type} (body1 body2 : S -> A -> result S)
  (l : list A) :
  (forall a s, In a l -> body1 s a = body2 s a) ->
  forall s, foldM body1 l s = foldM body2 l s.
Proof.
  induction l as [|a l IH]; intros Hext s; cbn [foldM]; [reflexivity|].
  rewrite (Hext a s (or_introl eq_refl)).
  destruct (body2 s a) as [s'|p]; cbn [bind]; [|reflexivity].
  apply IH. intros b t Hb. apply Hext. right. exact Hb.
Qed.

Lemma foldM_invariant {A S : Type} (body : S -> A -> result S)
  (I : S -> Prop) (l : list A) :
  (forall a s s', In a l -> I s -> body s a = Return s' -> I s') ->
  forall s s', I s -> foldM body l s = Return s' -> I s'.
Proof.
  induction l as [|a l IH]; intros Hstep s s' Hs; cbn [foldM].
  - intros H. injection H as <-. exact Hs.
  - destruct (body s a) as [s1|p] eqn:E; cbn [bind]; [|intros H; discriminate H].
    apply IH.
    + intros b t t' Hb. apply Hstep. right. exact Hb.
    + exact (Hstep a s s1 (or_introl eq_refl) Hs E).
Qed.

(** The loop body of [Validate] in terms of the outcome of the field. *)
Lemma validateField_outcome (obj : object)
  (options : option ValidationOptions) (tagName : string)
  (st : bool * gmap string Z) (f : StructField) :
  validateField obj options tagName st f =
  if skipped options f then Return st
  else
    do r <- fieldOutcome obj options tagName f;
    Return (if fst r then st else (false, <[fName f := snd r]> (snd st))).
Proof.
  unfold validateField, fieldOutcome.
  destruct (skipped options f); [reflexivity|].
  destruct (fieldValidation options tagName f) as [v|p]; cbn [bind];
    [|reflexivity].
  destruct (fieldValueOf obj options f) as [x|p]; cbn [bind]; [|reflexivity].
  destruct (validateValue x v) as [[b c]|p]; cbn [bind fst snd negb];
    [|reflexivity].
  destruct b; reflexivity.
Qed.

(** One step of the loop either keeps the state or records the field. *)
Lemma validateField_step (obj : object) (options : option ValidationOptions)
  (tagName : string) (st st' : bool * gmap string Z) (f : StructField) :
  validateField obj options tagName st f = Return st' ->
  (st' = st /\ reported obj options tagName f = None)
  \/ (exists code, st' = (false, <[fName f := code]> (snd st))
                   /\ reported obj options tagName f = Some code).
Proof.
  rewrite validateField_outcome. unfold reported.
  destruct (skipped options f).
  - intros H. injection H as <-. left. split; reflexivity.
  - destruct (fieldOutcome obj options tagName f) as [[b c]|p]; cbn [bind];
      [|intros H; discriminate H].
    cbn [fst snd]. destruct b; intros H; injection H as <-.
    + left. split; reflexivity.
    + right. exists c. split; reflexivity.
Qed.

End Loops.

Section ValidateProps.
Context {engine : RegexpEngine}.

(** A pass carries the code 0, a failure one of the eight codes. *)
Lemma validateValue_codes (value : Value) (v : FieldValidation) (b : bool)
  (c : Z) :
  validateValue value v = Return (b, c) ->
  (b = true /\ c = 0) \/ (b = false /\ In c failureCodes).
Proof.
  unfold validateValue, and_then, failureCodes.
  destruct (Value_Type value) as [t|p]; cbn [bind].
  - repeat match goal with
           | |- context [if ?x then _ else _] => destruct x; cbn [bind]
           | |- context [Value_Int ?x] => destruct (Value_Int x); cbn [bind]
           | |- context [MustCompile ?x] =>
               destruct (MustCompile x); cbn [bind]
           end;
      intros H; try discriminate H; injection H as <- <-;
      first [left; split; reflexivity | right; split; [reflexivity|];
             cbn [In]; tauto].
  - destruct (has_flag v Required); cbn [bind]; intros H; discriminate H.
Qed.

(** Where an entry of the map of failed fields comes from. *)
Lemma Validate_entry_origin (obj : object)
  (options : option ValidationOptions) (valid : bool) (m : gmap string Z) :
  Validate obj options = Return (valid, m) ->
  forall k c, m !! k = Some c ->
  exists f, In f (fieldsOf obj) /\ fName f = k
            /\ reported obj options (tagNameOf options) f = Some c.
Proof.
  unfold Validate. intros Hret.
  refine (foldM_invariant
            (validateField obj options (tagNameOf options))
            (fun st => forall k c, snd st !! k = Some c ->
                exists f, In f (fieldsOf obj) /\ fName f = k
                  /\ reported obj options (tagNameOf options) f = Some c)
            (fieldsOf obj) _ (true, ∅) (valid, m) _ Hret).
  - intros f st st' Hin Hst Hstep k c.
    destruct (validateField_step _ _ _ _ _ _ Hstep)
      as [[-> _] | (code & -> & Hrep)]; [apply Hst|].
    cbn [snd]. destruct (decide (fName f = k)) as [<- | Hne].
    + rewrite lookup_insert_eq. intros H. injection H as <-.
      exists f. repeat split; assumption.
    + rewrite lookup_insert_ne by exact Hne. apply Hst.
  - intros k c H. cbn [snd] in H. rewrite lookup_empty in H. discriminate H.
Qed.

Lemma reported_Some (obj : object) (options : option ValidationOptions)
  (tagName : string) (f : StructField) (c : Z) :
  reported obj options tagName f = Some c ->
  skipped options f = false
  /\ fieldOutcome obj options tagName f = Return (false, c).
Proof.
  unfold reported. destruct (skipped options f); [intros H; discriminate H|].
  destruct (fieldOutcome obj options tagName f) as [[[|] c']|p];
    intros H; try discriminate H.
  injection H as ->. split; reflexivity.
Qed.

(** ** What the map of failed fields holds *)

(** X1: With a non-empty [RestrictFields], only the fields it maps to [true] can
    be reported. *)
Theorem Validate_reports_only_restricted_fields (obj : object)
  (o : ValidationOptions) (valid : bool) (m : gmap string Z) (k : string) :
  Validate obj (Some o) = Return (valid, m) ->
  RestrictFields o <> ∅ ->
  is_Some (m !! k) ->
  RestrictFields o !! k = Some true.
Proof.
  intros Hret Hne [c Hc].
  destruct (Validate_entry_origin _ _ _ _ Hret k c Hc) as (f & _ & <- & Hrep).
  apply reported_Some in Hrep as [Hskip _].
  unfold skipped in Hskip. apply orb_false_elim in Hskip as [Hr _].
  unfold restrictedOut, with_options in Hr.
  apply map_size_non_empty_iff in Hne.
  assert ((0 <? size (RestrictFields o))%nat = true) as Hsize
    by (apply Nat.ltb_lt; lia).
  rewrite Hsize in Hr. cbn [andb] in Hr. apply negb_false_iff in Hr.
  unfold index_bool in Hr.
  destruct (RestrictFields o !! fName f) as [[|]|]; cbn in Hr;
    first [reflexivity | discriminate Hr].
Qed.

(** X2: Only fields of string kind or of one of the ten integer kinds can be
    reported, and only with one of the eight failure codes. *)
Theorem Validate_reports_candidates_with_codes (obj : object)
  (options : option ValidationOptions) (valid : bool) (m : gmap string Z)
  (k : string) (c : Z) :
  Validate obj options = Return (valid, m) ->
  m !! k = Some c ->
  In c failureCodes
  /\ exists f, In f (fieldsOf obj) /\ fName f = k
               /\ isNotInt (tKind (fType f)) || isNotString (tKind (fType f))
                  = true.
Proof.
  intros Hret Hc.
  destruct (Validate_entry_origin _ _ _ _ Hret k c Hc) as (f & Hin & Hk & Hrep).
  apply reported_Some in Hrep as [Hskip Hout]. split.
  - unfold fieldOutcome in Hout.
    destruct (fieldValidation options (tagNameOf options) f) as [v|p];
      cbn [bind] in Hout; [|discriminate Hout].
    destruct (fieldValueOf obj options f) as [x|p]; cbn [bind] in Hout;
      [|discriminate Hout].
    destruct (validateValue_codes _ _ _ _ Hout) as [[H _] | [_ H]];
      [discriminate H | exact H].
  - exists f. split; [exact Hin|]. split; [exact Hk|].
    unfold skipped in Hskip. apply orb_false_elim in Hskip as [_ Hf].
    unfold filteredOut in Hf.
    destruct (isNotInt (tKind (fType f))); [reflexivity|].
    cbn [negb andb] in Hf. apply negb_false_iff in Hf. exact Hf.
Qed.

(** X3: The boolean result is [true] exactly when the map is empty. *)
Theorem Validate_valid_iff_nothing_reported (obj : object)
  (options : option ValidationOptions) (valid : bool) (m : gmap string Z) :
  Validate obj options = Return (valid, m) ->
  valid = true <-> m = ∅.
Proof.
  unfold Validate. intros Hret.
  refine (foldM_invariant
            (validateField obj options (tagNameOf options))
            (fun st => fst st = true <-> snd st = ∅)
            (fieldsOf obj) _ (true, ∅) (valid, m) _ Hret).
  - intros f st st' _ Hst Hstep.
    destruct (validateField_step _ _ _ _ _ _ Hstep)
      as [[-> _] | (code & -> & _)]; [exact Hst|].
    cbn [fst snd]. split; [intros H; discriminate H|].
    intros H. exfalso. exact (insert_non_empty _ _ _ H).
  - cbn [fst snd]. split; reflexivity.
Qed.

End ValidateProps.

Section ValidateProps2.
Context {engine : RegexpEngine}.

Lemma foldM_validateField_lookup (obj : object)
  (options : option ValidationOptions) (tagName : string)
  (l : list StructField) :
  NoDup (map fName l) ->
  forall st st',
  foldM (validateField obj options tagName) l st = Return st' ->
  (forall f, In f l ->
     snd st' !! fName f
     = match reported obj options tagName f with
       | Some c => Some c
       | None => snd st !! fName f
       end)
  /\ (forall k, ~ In k (map fName l) -> snd st' !! k = snd st !! k).
Proof.
  induction l as [|f0 l IH]; intros Hnd st st'; cbn [foldM].
  - intros H. injection H as <-. split; [intros f []|reflexivity].
  - inversion Hnd as [|? ? Hnotin Hnd']; subst.
    rewrite list_elem_of_In in Hnotin.
    destruct (validateField obj options tagName st f0) as [st1|p] eqn:E;
      cbn [bind]; [|intros H; discriminate H].
    intros Hrest. destruct (IH Hnd' _ _ Hrest) as [IHin IHout].
    assert (Hst1 : forall k, k <> fName f0 -> snd st1 !! k = snd st !! k).
    { intros k Hk.
      destruct (validateField_step _ _ _ _ _ _ E)
        as [[-> _] | (code & -> & _)]; [reflexivity|].
      cbn [snd]. apply lookup_insert_ne. congruence. }
    split.
    + intros f [<- | Hin].
      * rewrite (IHout _ Hnotin).
        destruct (validateField_step _ _ _ _ _ _ E)
          as [[-> ->] | (code & -> & ->)]; [reflexivity|].
        cbn [snd]. apply lookup_insert_eq.
      * rewrite (IHin f Hin).
        destruct (reported obj options tagName f); [reflexivity|].
        apply Hst1. intros Heq. apply Hnotin. rewrite <- Heq.
        apply in_map, Hin.
    + intros k Hk. cbn [map In] in Hk.
      rewrite IHout by tauto. apply Hst1. intros ->. tauto.
Qed.

(** X4: When the field names are distinct, the map holds, under the name of
    each field, exactly what the loop records for it. *)
Theorem Validate_map_is_what_is_reported (obj : object)
  (options : option ValidationOptions) (valid : bool) (m : gmap string Z)
  (f : StructField) :
  Validate obj options = Return (valid, m) ->
  NoDup (map fName (fieldsOf obj)) ->
  In f (fieldsOf obj) ->
  m !! fName f = reported obj options (tagNameOf options) f.
Proof.
  unfold Validate. intros Hret Hnd Hin.
  destruct (foldM_validateField_lookup _ _ _ _ Hnd _ _ Hret) as [H _].
  specialize (H f Hin). cbn [snd] in H. rewrite H, lookup_empty.
  destruct (reported obj options (tagNameOf options) f); reflexivity.
Qed.

(** X5: When every field is skipped, [Validate] returns [(true, {})], for a
    struct passed by value too. *)
Theorem Validate_all_skipped (obj : object)
  (options : option ValidationOptions) :
  (forall f, In f (fieldsOf obj) -> skipped options f = true) ->
  Validate obj options = Return (true, ∅).
Proof.
  unfold Validate. generalize (true, (∅ : gmap string Z)) as st.
  induction (fieldsOf obj) as [|f l IH]; intros st Hall; cbn [foldM];
    [reflexivity|].
  unfold validateField at 1. rewrite (Hall f (or_introl eq_refl)).
  cbn [bind]. apply IH. intros g Hg. apply Hall. right. exact Hg.
Qed.

(** X6: [nil] options and [&ValidationOptions{}] give the same result. *)
Theorem Validate_nil_options (obj : object) :
  Validate obj None = Validate obj (Some noOptions).
Proof.
  unfold Validate. change (tagNameOf (Some noOptions)) with (tagNameOf None).
  apply foldM_ext. intros f st _. reflexivity.
Qed.

(** X7: When every field that is not skipped has an entry in
    [OverwriteFieldValues], a struct and a pointer to it are validated
    alike. *)
Theorem Validate_by_value_when_overwritten (fs : list StructField)
  (options : option ValidationOptions) :
  (forall f, In f fs -> skipped options f = false ->
             valueOverwritten options f = true) ->
  Validate (StructValue fs) options = Validate (StructPointer fs) options.
Proof.
  intros Hover. unfold Validate. cbn [fieldsOf].
  apply foldM_ext. intros f st Hin. unfold validateField.
  destruct (skipped options f) eqn:Hskip; [reflexivity|].
  unfold fieldValueOf. rewrite (Hover f Hin Hskip). reflexivity.
Qed.

(** Every validation panics on the zero Value. *)
Lemma validateValue_ZeroValue (v : FieldValidation) :
  validateValue ZeroValue v = Panic (ValueError "reflect.Value.Type" Invalid).
Proof. unfold validateValue. destruct (has_flag v Required); reflexivity. Qed.

(** X8: A [nil] entry of [OverwriteFieldValues] for a field that is not skipped
    makes [Validate] panic: resolving the field panics in
    [regexp.MustCompile], or validating the zero Value panics in
    [reflect.Value.Type]. *)
Theorem Validate_nil_overwritten_value_panics (obj : object)
  (o : ValidationOptions) (f : StructField) :
  In f (fieldsOf obj) ->
  skipped (Some o) f = false ->
  OverwriteFieldValues o !! fName f = Some ZeroValue ->
  (exists p, Validate obj (Some o) = Panic p)
  /\ exists p, fieldOutcome obj (Some o) (tagNameOf (Some o)) f = Panic p
       /\ (p = ValueError "reflect.Value.Type" Invalid
           \/ exists pattern, p = RegexpCompileError pattern).
Proof.
  intros Hin Hskip Hnil.
  assert (Hover : valueOverwritten (Some o) f = true).
  { unfold valueOverwritten, with_options. apply andb_true_iff. split.
    - apply Nat.ltb_lt.
      assert (size (OverwriteFieldValues o) <> 0%nat); [|lia].
      apply map_size_ne_0_lookup. eauto.
    - apply isKeyInMap_lookup. eauto. }
  assert (Hout : exists p,
             fieldOutcome obj (Some o) (tagNameOf (Some o)) f = Panic p
             /\ (p = ValueError "reflect.Value.Type" Invalid
                 \/ exists pattern, p = RegexpCompileError pattern)).
  { unfold fieldOutcome, fieldValueOf. rewrite Hover.
    destruct (fieldValidation (Some o) (tagNameOf (Some o)) f) as [v|p] eqn:E;
      cbn [bind].
    - unfold index_value. rewrite Hnil. cbn [default].
      rewrite validateValue_ZeroValue. eexists. split; [reflexivity|].
      left. reflexivity.
    - exists p. split; [reflexivity|]. right.
      unfold fieldValidation in E.
      destruct (tagValues (Some o) (tagNameOf (Some o)) f) as [tv tr].
      destruct (setValidationFromTag newValidation tv) as [v0|p0] eqn:E0;
        cbn [bind] in E.
      + destruct (negb (String.eqb tr "")); cbn [bind] in E.
        * unfold MustCompile in E. destruct (Compile tr); cbn [bind] in E.
          -- destruct (with_options (Some o) ValidateWhenSuffix);
               discriminate E.
          -- injection E as <-. eexists. reflexivity.
        * destruct (with_options (Some o) ValidateWhenSuffix); discriminate E.
      + injection E as <-.
        destruct (setValidationFromTag_panic _ _ _ E0) as (pat & -> & _).
        eexists. reflexivity. }
  split; [|exact Hout].
  unfold Validate. apply (foldM_panics _ _ _ Hin).
  intros st. rewrite validateField_outcome, Hskip.
  destruct Hout as (p & -> & _). exists p. reflexivity.
Qed.

End ValidateProps2.

(** ** Splitting a declaration *)

Lemma SplitN_space_not_nil (s : string) : SplitN_space s <> [].
Proof.
  destruct s as [|c s]; cbn [SplitN_space]; [discriminate|].
  destruct (SplitN_space s); [discriminate|].
  destruct (Ascii.eqb c " "); discriminate.
Qed.

Lemma SplitN_space_cons (c : ascii) (s : string) :
  SplitN_space (String c s)
  = if Ascii.eqb c " " then EmptyString :: SplitN_space s
    else match SplitN_space s with
         | w :: ws => String c w :: ws
         | [] => [String c EmptyString]
         end.
Proof.
  cbn [SplitN_space]. pose proof (SplitN_space_not_nil s) as Hne.
  destruct (SplitN_space s) as [|w ws]; [contradiction|].
  destruct (Ascii.eqb c " "); reflexivity.
Qed.

Lemma SplitN_space_join (a b : string) :
  SplitN_space (a +:+ " " +:+ b) = SplitN_space a ++ SplitN_space b.
Proof.
  induction a as [|c a IH].
  - change ("" +:+ " " +:+ b) with (String " " b).
    rewrite SplitN_space_cons. reflexivity.
  - change (String c a +:+ " " +:+ b) with (String c (a +:+ " " +:+ b)).
    rewrite !SplitN_space_cons, IH.
    pose proof (SplitN_space_not_nil a) as Hne.
    destruct (SplitN_space a) as [|w ws]; [contradiction|].
    destruct (Ascii.eqb c " "); reflexivity.
Qed.

(** A token without a space is a declaration of one token. *)
Lemma SplitN_space_prefixed (key s : string) :
  SplitN_space key = [key] -> SplitN_space s = [s] ->
  SplitN_space (key +:+ s) = [key +:+ s].
Proof.
  intros Hkey Hs. induction key as [|c key IH]; [exact Hs|].
  change (String c key +:+ s) with (String c (key +:+ s)).
  rewrite SplitN_space_cons in Hkey |- *.
  destruct (Ascii.eqb c " "); [discriminate Hkey|].
  pose proof (SplitN_space_not_nil key) as Hne.
  destruct (SplitN_space key) as [|w ws]; [contradiction|].
  injection Hkey as -> ->. rewrite (IH eq_refl). reflexivity.
Qed.

Lemma digits_no_space (s : string) (acc n : Z) :
  digits_value acc s = Some n -> SplitN_space s = [s].
Proof.
  revert acc. induction s as [|c s IH]; intros acc; [reflexivity|].
  cbn [digits_value]. destruct (digit_of c) as [d|] eqn:Hd;
    [|intros H; discriminate H].
  intros H. rewrite SplitN_space_cons, (IH _ H).
  destruct (Ascii.eqb_spec c " ") as [-> | _]; [discriminate Hd | reflexivity].
Qed.

Lemma Atoi_no_space (s : string) (n : Z) :
  Atoi s = Some n -> SplitN_space s = [s].
Proof.
  unfold Atoi. intros H. destruct s as [|c r]; [discriminate H|].
  destruct c as [[|] [|] [|] [|] [|] [|] [|] [|]]; cbv beta iota zeta in H;
    first
      [ destruct (digits_value 0 (String _ r)) eqn:E in H;
        [exact (digits_no_space _ _ _ E) | discriminate H]
      | destruct r as [|c' r']; [discriminate H|];
        destruct (digits_value 0 (String c' r')) eqn:E; [|discriminate H];
        rewrite SplitN_space_cons, (digits_no_space _ _ _ E); reflexivity ].
Qed.

Section Parsing.
Context {engine : RegexpEngine}.

(** ** Parsing a declaration *)

Lemma setValidationFromTag_single (v : FieldValidation) (opt : string) :
  SplitN_space opt = [opt] ->
  setValidationFromTag v opt = setOpt v opt.
Proof.
  intros H. unfold setValidationFromTag. rewrite H. cbn [foldM].
  destruct (setOpt v opt); reflexivity.
Qed.

(** What a token "key:val" of a numeric key does. *)
Lemma setOpt_lenmin (v : FieldValidation) (val : string) :
  setOpt v ("lenmin:" +:+ val)
  = Return match Atoi val with Some i => set_lenMin v i | None => v end.
Proof.
  set (opt := "lenmin:" +:+ val).
  assert (Hreq : String.eqb opt "req" = false) by reflexivity.
  assert (Hemail : String.eqb opt "email" = false) by reflexivity.
  assert (H1 : HasPrefix opt ("lenmin" +:+ ":") = true)
    by (subst opt; destruct val; reflexivity).
  assert (H2 : HasPrefix opt ("lenmax" +:+ ":") = false) by reflexivity.
  assert (H3 : HasPrefix opt ("valmin" +:+ ":") = false) by reflexivity.
  assert (H4 : HasPrefix opt ("valmax" +:+ ":") = false) by reflexivity.
  assert (H5 : HasPrefix opt ("regexp" +:+ ":") = false) by reflexivity.
  assert (H6 : Replace1 opt ("lenmin" +:+ ":") "" = val)
    by (subst opt; destruct val; reflexivity).
  unfold setOpt, valOpts. rewrite Hreq, Hemail. cbn [foldM].
  unfold setValOpt. rewrite H1, H2, H3, H4, H5, H6.
  destruct (Atoi val); reflexivity.
Qed.

Lemma setOpt_lenmax (v : FieldValidation) (val : string) :
  setOpt v ("lenmax:" +:+ val)
  = Return match Atoi val with Some i => set_lenMax v i | None => v end.
Proof.
  set (opt := "lenmax:" +:+ val).
  assert (Hreq : String.eqb opt "req" = false) by reflexivity.
  assert (Hemail : String.eqb opt "email" = false) by reflexivity.
  assert (H1 : HasPrefix opt ("lenmin" +:+ ":") = false) by reflexivity.
  assert (H2 : HasPrefix opt ("lenmax" +:+ ":") = true)
    by (subst opt; destruct val; reflexivity).
  assert (H3 : HasPrefix opt ("valmin" +:+ ":") = false) by reflexivity.
  assert (H4 : HasPrefix opt ("valmax" +:+ ":") = false) by reflexivity.
  assert (H5 : HasPrefix opt ("regexp" +:+ ":") = false) by reflexivity.
  assert (H6 : Replace1 opt ("lenmax" +:+ ":") "" = val)
    by (subst opt; destruct val; reflexivity).
  unfold setOpt, valOpts. rewrite Hreq, Hemail. cbn [foldM].
  unfold setValOpt. rewrite H1, H2, H3, H4, H5, H6.
  destruct (Atoi val); reflexivity.
Qed.

Lemma setOpt_valmin (v : FieldValidation) (val : string) :
  setOpt v ("valmin:" +:+ val)
  = Return match Atoi val with
           | Some i => if i =? 0 then or_flag (set_valMin v i) ValMinNotNil
                       else set_valMin v i
           | None => v
           end.
Proof.
  set (opt := "valmin:" +:+ val).
  assert (Hreq : String.eqb opt "req" = false) by reflexivity.
  assert (Hemail : String.eqb opt "email" = false) by reflexivity.
  assert (H1 : HasPrefix opt ("lenmin" +:+ ":") = false) by reflexivity.
  assert (H2 : HasPrefix opt ("lenmax" +:+ ":") = false) by reflexivity.
  assert (H3 : HasPrefix opt ("valmin" +:+ ":") = true)
    by (subst opt; destruct val; reflexivity).
  assert (H4 : HasPrefix opt ("valmax" +:+ ":") = false) by reflexivity.
  assert (H5 : HasPrefix opt ("regexp" +:+ ":") = false) by reflexivity.
  assert (H6 : Replace1 opt ("valmin" +:+ ":") "" = val)
    by (subst opt; destruct val; reflexivity).
  unfold setOpt, valOpts. rewrite Hreq, Hemail. cbn [foldM].
  unfold setValOpt. rewrite H1, H2, H3, H4, H5, H6.
  destruct (Atoi val); reflexivity.
Qed.

Lemma setOpt_valmax (v : FieldValidation) (val : string) :
  setOpt v ("valmax:" +:+ val)
  = Return match Atoi val with
           | Some i => if i =? 0 then or_flag (set_valMax v i) ValMaxNotNil
                       else set_valMax v i
           | None => v
           end.
Proof.
  set (opt := "valmax:" +:+ val).
  assert (Hreq : String.eqb opt "req" = false) by reflexivity.
  assert (Hemail : String.eqb opt "email" = false) by reflexivity.
  assert (H1 : HasPrefix opt ("lenmin" +:+ ":") = false) by reflexivity.
  assert (H2 : HasPrefix opt ("lenmax" +:+ ":") = false) by reflexivity.
  assert (H3 : HasPrefix opt ("valmin" +:+ ":") = false) by reflexivity.
  assert (H4 : HasPrefix opt ("valmax" +:+ ":") = true)
    by (subst opt; destruct val; reflexivity).
  assert (H5 : HasPrefix opt ("regexp" +:+ ":") = false) by reflexivity.
  assert (H6 : Replace1 opt ("valmax" +:+ ":") "" = val)
    by (subst opt; destruct val; reflexivity).
  unfold setOpt, valOpts. rewrite Hreq, Hemail. cbn [foldM].
  unfold setValOpt. rewrite H1, H2, H3, H4, H5, H6.
  destruct (Atoi val); reflexivity.
Qed.

(** X9: Two declarations joined by a space are parsed one after the other. *)
Theorem setValidationFromTag_join (v : FieldValidation) (a b : string) :
  setValidationFromTag v (a +:+ " " +:+ b)
  = do v' <- setValidationFromTag v a; setValidationFromTag v' b.
Proof.
  unfold setValidationFromTag. rewrite SplitN_space_join. apply foldM_app.
Qed.

(** X10: A numeric token with a well-formed integer sets its field; "valmin" and
    "valmax" also set their flag when the integer is 0. *)
Theorem numeric_token_sets_its_field (v : FieldValidation) (val : string)
  (i : Z) :
  Atoi val = Some i ->
  setValidationFromTag v ("lenmin:" +:+ val) = Return (set_lenMin v i)
  /\ setValidationFromTag v ("lenmax:" +:+ val) = Return (set_lenMax v i)
  /\ setValidationFromTag v ("valmin:" +:+ val)
     = Return (if i =? 0 then or_flag (set_valMin v i) ValMinNotNil
               else set_valMin v i)
  /\ setValidationFromTag v ("valmax:" +:+ val)
     = Return (if i =? 0 then or_flag (set_valMax v i) ValMaxNotNil
               else set_valMax v i).
Proof.
  intros Hi. pose proof (Atoi_no_space _ _ Hi) as Hval.
  repeat split;
    rewrite setValidationFromTag_single
      by (apply SplitN_space_prefixed; [reflexivity | exact Hval]).
  - rewrite setOpt_lenmin, Hi. reflexivity.
  - rewrite setOpt_lenmax, Hi. reflexivity.
  - rewrite setOpt_valmin, Hi. reflexivity.
  - rewrite setOpt_valmax, Hi. reflexivity.
Qed.

(** X11: A numeric token whose value is not an integer of the int range changes
    nothing. *)
Theorem malformed_number_is_ignored (v : FieldValidation) (val : string) :
  SplitN_space val = [val] ->
  Atoi val = None ->
  setValidationFromTag v ("lenmin:" +:+ val) = Return v
  /\ setValidationFromTag v ("lenmax:" +:+ val) = Return v
  /\ setValidationFromTag v ("valmin:" +:+ val) = Return v
  /\ setValidationFromTag v ("valmax:" +:+ val) = Return v.
Proof.
  intros Hval Hbad.
  repeat split;
    rewrite setValidationFromTag_single
      by (apply SplitN_space_prefixed; [reflexivity | exact Hval]).
  - rewrite setOpt_lenmin, Hbad. reflexivity.
  - rewrite setOpt_lenmax, Hbad. reflexivity.
  - rewrite setOpt_valmin, Hbad. reflexivity.
  - rewrite setOpt_valmax, Hbad. reflexivity.
Qed.

(** X12: A token that is neither "req" nor "email" and starts with none of the
    five keys changes nothing. *)
Theorem unknown_token_is_ignored (v : FieldValidation) (opt : string) :
  SplitN_space opt = [opt] ->
  opt <> "req" -> opt <> "email" ->
  (forall key, In key valOpts -> HasPrefix opt (key +:+ ":") = false) ->
  setValidationFromTag v opt = Return v.
Proof.
  intros Hone Hreq Hemail Hkeys.
  rewrite (setValidationFromTag_single _ _ Hone). unfold setOpt.
  destruct (String.eqb_spec opt "req"); [contradiction|].
  destruct (String.eqb_spec opt "email"); [contradiction|].
  revert Hkeys. generalize valOpts as keys.
  induction keys as [|key keys IH]; intros Hkeys; cbn [foldM]; [reflexivity|].
  unfold setValOpt at 1. rewrite (Hkeys key (or_introl eq_refl)). cbn [bind].
  apply IH. intros k Hk. apply Hkeys. right. exact Hk.
Qed.

End Parsing.

Section Flags.
Context {engine : RegexpEngine}.

(** ** Flags *)

(** A flag of one bit is that bit of [flags]. *)
Lemma has_flag_testbit (v : FieldValidation) (k : Z) :
  0 <= k -> has_flag v (2 ^ k) = Z.testbit (flags v) k.
Proof.
  intros Hk. unfold has_flag.
  assert (Hland : Z.land (flags v) (2 ^ k)
                  = if Z.testbit (flags v) k then 2 ^ k else 0).
  { apply Z.bits_inj'. intros i Hi.
    rewrite Z.land_spec, (Z.pow2_bits_eqb k i Hk).
    destruct (Z.eqb_spec k i) as [<- | Hne].
    - destruct (Z.testbit (flags v) k); cbn [andb].
      + rewrite (Z.pow2_bits_eqb k k Hk), Z.eqb_refl. reflexivity.
      + rewrite Z.bits_0. reflexivity.
    - rewrite andb_false_r.
      destruct (Z.testbit (flags v) k).
      + rewrite (Z.pow2_bits_eqb k i Hk).
        symmetry. apply Z.eqb_neq. exact Hne.
      + rewrite Z.bits_0. reflexivity. }
  rewrite Hland. destruct (Z.testbit (flags v) k).
  - apply Z.gtb_lt. apply Z.pow_pos_nonneg; lia.
  - reflexivity.
Qed.


Lemma keeps_flags_refl (v : FieldValidation) : keeps_flags v v.
Proof. intros k H. exact H. Qed.

Lemma keeps_flags_or_flag (v v' : FieldValidation) (bit : Z) :
  keeps_flags v v' -> keeps_flags v (or_flag v' bit).
Proof.
  intros H k Hk. unfold or_flag, set_flags. cbn [flags].
  rewrite Z.lor_spec, (H k Hk). reflexivity.
Qed.

Lemma setValOpt_keeps_flags (opt valOpt : string) (v v' : FieldValidation) :
  setValOpt opt v valOpt = Return v' -> keeps_flags v v'.
Proof.
  unfold setValOpt, MustCompile.
  repeat match goal with
         | |- context [if ?b then _ else _] => destruct b
         | |- context [match Atoi ?x with _ => _ end] => destruct (Atoi x)
         | |- context [match Compile ?x with _ => _ end] =>
             destruct (Compile x)
         end; cbn [bind]; intros H; try discriminate H; injection H as <-;
    repeat apply keeps_flags_or_flag; intros k Hk; exact Hk.
Qed.

Lemma setOpt_keeps_flags (opt : string) (v v' : FieldValidation) :
  setOpt v opt = Return v' -> keeps_flags v v'.
Proof.
  unfold setOpt. intros H.
  refine (foldM_invariant (setValOpt opt) (fun w => keeps_flags v w) valOpts
            _ _ v' _ H).
  - intros key w w' _ Hw Hstep k Hk.
    exact (setValOpt_keeps_flags _ _ _ _ Hstep k (Hw k Hk)).
  - repeat match goal with
           | |- context [if ?b then _ else _] => destruct b
           end; repeat apply keeps_flags_or_flag; apply keeps_flags_refl.
Qed.

(** A property that one element of a loop establishes and every element
    keeps holds at the end. *)
Lemma foldM_established {A S : Type} (body : S -> A -> result S)
  (Q : S -> Prop) (l : list A) (a : A) :
  In a l ->
  (forall s s', body s a = Return s' -> Q s') ->
  (forall b s s', Q s -> body s b = Return s' -> Q s') ->
  forall s s', foldM body l s = Return s' -> Q s'.
Proof.
  intros Hin Hest Hkeep. induction l as [|a0 l IH]; [destruct Hin|].
  intros s s'. cbn [foldM].
  destruct (body s a0) as [s1|p] eqn:E; cbn [bind]; [|intros H; discriminate H].
  destruct Hin as [-> | Hin].
  - apply (foldM_invariant body Q l).
    + intros b t t' _. apply Hkeep.
    + exact (Hest _ _ E).
  - apply IH, Hin.
Qed.

Lemma token_sets_flag (tok : string) (k : Z) (v : FieldValidation)
  (tag : string) :
  0 <= k ->
  (forall w w', setOpt w tok = Return w' -> Z.testbit (flags w') k = true) ->
  In tok (SplitN_space tag) ->
  match setValidationFromTag v tag with
  | Return v' => has_flag v' (2 ^ k) = true
  | Panic p =>
      exists pattern, p = RegexpCompileError pattern /\ Compile pattern = None
  end.
Proof.
  intros Hk Htok Hin.
  destruct (setValidationFromTag v tag) as [v'|p] eqn:E.
  - rewrite (has_flag_testbit _ _ Hk). unfold setValidationFromTag in E.
    refine (foldM_established setOpt
              (fun w => Z.testbit (flags w) k = true)
              (SplitN_space tag) tok Hin Htok _ v v' E).
    intros opt w w' Hw Hstep. exact (setOpt_keeps_flags _ _ _ Hstep k Hw).
  - exact (setValidationFromTag_panic _ _ _ E).
Qed.

(** X13: A token "req" (resp. "email") anywhere in the declaration makes the
    validation required (resp. an email), whatever the other tokens; the
    only other outcome is the panic of a pattern that does not compile. *)
Theorem req_and_email_tokens_set_their_flag (v : FieldValidation)
  (tag : string) :
  (In "req" (SplitN_space tag) ->
   match setValidationFromTag v tag with
   | Return v' => has_flag v' Required = true
   | Panic p =>
       exists pattern, p = RegexpCompileError pattern /\ Compile pattern = None
   end)
  /\ (In "email" (SplitN_space tag) ->
      match setValidationFromTag v tag with
      | Return v' => has_flag v' Email = true
      | Panic p =>
          exists pattern,
            p = RegexpCompileError pattern /\ Compile pattern = None
      end).
Proof.
  split; intros Hin.
  - apply (token_sets_flag "req" 3 v tag); [lia | | exact Hin].
    intros w w' H.
    change (setOpt w "req") with (Return (or_flag w Required)) in H.
    injection H as <-. unfold or_flag, set_flags. cbn [flags].
    rewrite Z.lor_spec. apply orb_true_r.
  - apply (token_sets_flag "email" 4 v tag); [lia | | exact Hin].
    intros w w' H.
    change (setOpt w "email") with (Return (or_flag w Email)) in H.
    injection H as <-. unfold or_flag, set_flags. cbn [flags].
    rewrite Z.lor_spec. apply orb_true_r.
Qed.

(** A loop whose body returns and keeps a property on every element returns
    with the property. *)
Lemma foldM_returns {A S : Type} (body : S -> A -> result S)
  (R : S -> Prop) (l : list A) :
  (forall a s, In a l -> R s -> exists s', body s a = Return s' /\ R s') ->
  forall s, R s -> exists s', foldM body l s = Return s' /\ R s'.
Proof.
  induction l as [|a l IH]; intros Hstep s Hs; cbn [foldM].
  - exists s. split; [reflexivity | exact Hs].
  - destruct (Hstep a s (or_introl eq_refl) Hs) as (s1 & -> & Hs1).
    cbn [bind]. apply IH; [|exact Hs1].
    intros b t Hb. apply Hstep. right. exact Hb.
Qed.

(** X14: A declaration without a "regexp:" token is parsed without a panic, and
    the pattern of the validation stays what it was. *)
Theorem declaration_without_pattern_is_parsed (v : FieldValidation)
  (tag : string) :
  (forall opt, In opt (SplitN_space tag) -> HasPrefix opt "regexp:" = false) ->
  exists v', setValidationFromTag v tag = Return v' /\ regexp v' = regexp v.
Proof.
  intros Hno. unfold setValidationFromTag.
  apply (foldM_returns setOpt (fun w => regexp w = regexp v)); [|reflexivity].
  intros opt w Hin Hw. specialize (Hno opt Hin). unfold setOpt.
  apply (foldM_returns (setValOpt opt) (fun w' => regexp w' = regexp v)).
  - intros key w' Hkey Hw'. unfold setValOpt.
    destruct (HasPrefix opt (key +:+ ":")) eqn:Hp; [|eauto].
    destruct (String.eqb_spec key "regexp") as [-> | Hne].
    + change ("regexp" +:+ ":") with "regexp:" in Hp. congruence.
    + destruct (Atoi _) as [i|]; [|eauto].
      repeat match goal with
             | |- context [if ?b then _ else _] => destruct b
             end; eexists; (split; [reflexivity | exact Hw']).
  - repeat match goal with
           | |- context [if ?b then _ else _] => destruct b
           end; exact Hw.
Qed.

End Flags.

Section Resolution.
Context {engine : RegexpEngine}.

(** ** Rules by the suffix of the field name *)



End Resolution.

Section Values.
Context {engine : RegexpEngine}.

(** ** [validateValue] on the kinds of values *)

(** X16: A value whose type name starts with "int" but whose kind is not a signed
    integer kind (for [type internalID string], say) makes [validateValue]
    panic in [Value.Int] as soon as the field is required or a bound is
    active; with none of these it passes. *)
Theorem validateValue_int_named_type (t : rtype) (p : payload (tKind t))
  (v : FieldValidation) (e : panic) :
  HasPrefix (tName t) "int" = true ->
  Value_Int (MkValue t p) = Panic e ->
  validateValue (MkValue t p) v
  = if has_flag v Required || lowerBoundActive v || upperBoundActive v
    then Panic e else Return (true, 0).
Proof.
  intros Hint Hpanic. pose proof (prefix_int_not_string _ Hint) as Hstr.
  unfold validateValue, lowerBoundActive, upperBoundActive,
    minIsMeaningfulZero, maxIsMeaningfulZero.
  cbn [Value_Type bind]. rewrite Hstr, Hint, Hpanic.
  cbn [andb and_then bind].
  destruct (has_flag v Required); cbn [bind orb]; [reflexivity|].
  destruct (negb (valMin v =? 0) || has_flag v ValMinNotNil);
    cbn [and_then bind orb]; [reflexivity|].
  destruct (negb (valMax v =? 0) || has_flag v ValMaxNotNil);
    cbn [and_then bind orb]; reflexivity.
Qed.

(** X17: A value of type [string] fails with [FailEmpty] exactly when the
    validation is required and the string is empty, whatever else is
    declared. *)
Theorem FailEmpty_iff_required_and_empty (s : string) (v : FieldValidation) :
  validateValue (ofString s) v = Return (false, FailEmpty)
  <-> has_flag v Required = true /\ s = "".
Proof.
  rewrite validateValue_string.
  destruct (has_flag v Required); cbn [andb].
  - destruct (String.eqb_spec s "") as [-> | Hne].
    + split; [intros _; split; reflexivity | reflexivity].
    + split; [|intros [_ H]; contradiction].
      repeat match goal with
             | |- context [if ?b then _ else _] => destruct b
             | |- context [MustCompile ?x] =>
                 destruct (MustCompile x); cbn [bind]
             end; intros H; discriminate H.
  - split; [|intros [H _]; discriminate H].
    repeat match goal with
           | |- context [if ?b then _ else _] => destruct b
           | |- context [MustCompile ?x] =>
               destruct (MustCompile x); cbn [bind]
           end; intros H; discriminate H.
Qed.

(** X18: The bounds of the value play no part for a string, and the lengths and
    the pattern none for a signed integer. *)
Theorem constraints_of_the_other_kind_are_ignored (v : FieldValidation)
  (s : string) (name printed : string) (k : SignedKind) (n : Z)
  (a b : Z) (re : option Regexp) :
  HasPrefix name "int" = true ->
  validateValue (ofString s) (set_valMax (set_valMin v a) b)
  = validateValue (ofString s) v
  /\ validateValue (signedValue name printed k n)
       (set_regexp (set_lenMax (set_lenMin v a) b) re)
     = validateValue (signedValue name printed k n) v.
Proof.
  intros Hint. split.
  - rewrite !validateValue_string. reflexivity.
  - rewrite !(validateValue_signed _ _ _ _ _ Hint). reflexivity.
Qed.

(** X19: [validateValue] returns on every value of a predeclared string or
    integer type, provided the engine compiles the email pattern. *)
Theorem validateValue_returns_on_predeclared_types (v : FieldValidation)
  (s : string) (k : SignedKind) (u : UnsignedKind) (n : Z) :
  Compile emailPattern <> None ->
  (exists r, validateValue (ofString s) v = Return r)
  /\ (exists r, validateValue (intValue k n) v = Return r)
  /\ (exists r, validateValue (uintValue u n) v = Return r).
Proof.
  intros Hemail. repeat split.
  - rewrite validateValue_string. unfold MustCompile.
    destruct (Compile emailPattern) as [re|]; [|contradiction].
    cbn [bind].
    repeat match goal with
           | |- context [if ?b then _ else _] => destruct b
           end; eexists; reflexivity.
  - unfold intValue. rewrite (validateValue_signed _ _ _ _ _ (signed_prefix k)).
    eexists. reflexivity.
  - rewrite unsigned_values_are_not_checked. eexists. reflexivity.
Qed.

(** ** Maps of the options *)

(** X20: [isKeyInMap] decides whether the map has the key. *)
Theorem isKeyInMap_is_membership (k : string) (m : gmap string Value) :
  isKeyInMap k m = bool_decide (k ∈ dom m).
Proof.
  destruct (isKeyInMap k m) eqn:E; symmetry.
  - apply bool_decide_eq_true, elem_of_dom, isKeyInMap_lookup, E.
  - apply bool_decide_eq_false. intros H.
    apply elem_of_dom, isKeyInMap_lookup in H. congruence.
Qed.

(** X21: An entry of [OverwriteFieldTags] replaces a tag exactly when it is not
    empty, each of the two tags on its own; the two guards on the sizes of
    the maps change nothing. *)
Theorem tagValues_overwrite (o : ValidationOptions) (tagName : string)
  (f : StructField) :
  let over := index_tags (OverwriteFieldTags o) (fName f) in
  let pick (key : string) :=
    if String.eqb (index_string over key) "" then Tag_Get (fTag f) key
    else index_string over key in
  tagValues (Some o) tagName f = (pick tagName, pick (tagName +:+ "_regexp")).
Proof.
  cbv zeta. unfold tagValues. cbn [with_options].
  destruct (0 <? size (OverwriteFieldTags o))%nat eqn:E1.
  - destruct (0 <? size (index_tags (OverwriteFieldTags o) (fName f)))%nat
      eqn:E2.
    + destruct (String.eqb (index_string _ tagName) "");
        destruct (String.eqb (index_string _ (tagName +:+ "_regexp")) "");
        reflexivity.
    + apply Nat.ltb_ge in E2.
      assert (Hempty : index_tags (OverwriteFieldTags o) (fName f) = ∅)
        by (apply map_size_empty_iff; lia).
      rewrite Hempty. unfold index_string. rewrite !lookup_empty.
      reflexivity.
  - apply Nat.ltb_ge in E1.
    assert (Hempty : OverwriteFieldTags o = ∅)
      by (apply map_size_empty_iff; lia).
    rewrite Hempty. unfold index_tags, index_string.
    rewrite lookup_empty. cbn [default]. rewrite !lookup_empty. reflexivity.
Qed.

End Values.

(** ** Further properties on examples *)

Lemma Validate_reports_only_restricted_fields_witness :
  RestrictFields twoNames !! "LastName" = Some true.
Proof.
  apply (Validate_reports_only_restricted_fields
           (StructPointer (invalidTest1 "validation")) twoNames false
           {[ "FirstName" := FailLenMax; "LastName" := FailLenMin ]}
           "LastName").
  - vm_compute. reflexivity.
  - intros H. vm_compute in H. discriminate H.
  - exists FailLenMin. vm_compute. reflexivity.
Defined.

Lemma Validate_reports_candidates_with_codes_witness :
  In FailValMax failureCodes
  /\ exists f, In f (invalidTest1 "validation") /\ fName f = "Age"
       /\ isNotInt (tKind (fType f)) || isNotString (tKind (fType f)) = true.
Proof.
  apply (Validate_reports_candidates_with_codes
           (StructPointer (invalidTest1 "validation")) (Some threeOverwritten)
           false {[ "Age" := FailValMax ]} "Age" FailValMax).
  - vm_compute. reflexivity.
  - vm_compute. reflexivity.
Defined.

Lemma Validate_valid_iff_nothing_reported_witness :
  false = true <-> ({[ "Age" := FailValMax ]} : gmap string Z) = ∅.
Proof.
  apply (Validate_valid_iff_nothing_reported
           (StructPointer (invalidTest1 "validation")) (Some threeOverwritten)).
  vm_compute. reflexivity.
Defined.

Lemma Validate_map_is_what_is_reported_witness :
  ({[ "FirstName" := FailLenMax; "LastName" := FailLenMin ]}
     : gmap string Z) !! "LastName"
  = reported (StructPointer (invalidTest1 "validation")) (Some twoNames)
      "validation"
      (stringField "LastName" [("validation", "req lenmin:2 lenmax:50")] "b").
Proof.
  apply (Validate_map_is_what_is_reported
           (StructPointer (invalidTest1 "validation")) (Some twoNames) false
           {[ "FirstName" := FailLenMax; "LastName" := FailLenMin ]}
           (stringField "LastName"
              [("validation", "req lenmin:2 lenmax:50")] "b")).
  - vm_compute. reflexivity.
  - apply (bool_decide_unpack _). vm_compute. exact I.
  - right. left. reflexivity.
Defined.

Lemma Validate_all_skipped_witness :
  Validate (StructValue (Test4 "invalidemail")) (Some otherName)
  = Return (true, ∅).
Proof.
  apply (Validate_all_skipped (StructValue (Test4 "invalidemail"))
           (Some otherName)).
  intros f [<- | []]. vm_compute. reflexivity.
Defined.

Lemma Validate_by_value_when_overwritten_witness :
  Validate (StructValue (invalidTest1 "validation")) (Some threeOverwritten)
  = Validate (StructPointer (invalidTest1 "validation"))
      (Some threeOverwritten).
Proof.
  apply (Validate_by_value_when_overwritten (invalidTest1 "validation")
           (Some threeOverwritten)).
  intros f Hin.
  repeat (destruct Hin as [<- | Hin];
          [intros H; first [vm_compute; reflexivity
                           | vm_compute in H; discriminate H]|]).
  destruct Hin.
Defined.

Lemma Validate_nil_overwritten_value_panics_witness :
  exists p, Validate (StructPointer (Test4 "invalidemail")) (Some nilValue)
            = Panic p.
Proof.
  apply (Validate_nil_overwritten_value_panics
           (StructPointer (Test4 "invalidemail")) nilValue
           (stringField "PrimaryEmail" [] "invalidemail")).
  - left. reflexivity.
  - vm_compute. reflexivity.
  - vm_compute. reflexivity.
Defined.

Lemma numeric_token_sets_its_field_witness :
  setValidationFromTag newValidation "valmin:18"
  = Return (set_valMin newValidation 18).
Proof.
  destruct (numeric_token_sets_its_field newValidation "18" 18)
    as (_ & _ & Hmin & _); [vm_compute; reflexivity | exact Hmin].
Defined.

Lemma malformed_number_is_ignored_witness :
  setValidationFromTag newValidation "lenmin:five" = Return newValidation.
Proof.
  destruct (malformed_number_is_ignored newValidation "five")
    as (Hmin & _); [vm_compute; reflexivity | vm_compute; reflexivity |].
  exact Hmin.
Defined.

Lemma unknown_token_is_ignored_witness :
  setValidationFromTag newValidation "required" = Return newValidation.
Proof.
  apply (unknown_token_is_ignored newValidation "required").
  - vm_compute. reflexivity.
  - intros H. discriminate H.
  - intros H. discriminate H.
  - intros key Hkey.
    repeat (destruct Hkey as [<- | Hkey]; [vm_compute; reflexivity|]).
    destruct Hkey.
Defined.

Lemma req_and_email_tokens_set_their_flag_witness :
  match setValidationFromTag newValidation "lenmin:5 req" with
  | Return v' => has_flag v' Required = true
  | Panic p =>
      exists pattern, p = RegexpCompileError pattern /\ Compile pattern = None
  end.
Proof.
  destruct (req_and_email_tokens_set_their_flag newValidation "lenmin:5 req")
    as [Hreq _].
  apply Hreq. vm_compute. right. left. reflexivity.
Defined.

Lemma declaration_without_pattern_is_parsed_witness :
  exists v', setValidationFromTag newValidation "req lenmin:5" = Return v'
             /\ regexp v' = regexp newValidation.
Proof.
  apply (declaration_without_pattern_is_parsed newValidation "req lenmin:5").
  intros opt Hin. vm_compute in Hin.
  repeat (destruct Hin as [<- | Hin]; [vm_compute; reflexivity|]).
  destruct Hin.
Defined.


Lemma validateValue_int_named_type_witness :
  validateValue (MkValue internalID "x") (or_flag newValidation Required)
  = Panic (ValueError "reflect.Value.Int" String_).
Proof.
  apply (validateValue_int_named_type internalID "x"
           (or_flag newValidation Required)
           (ValueError "reflect.Value.Int" String_)); reflexivity.
Defined.

Lemma constraints_of_the_other_kind_are_ignored_witness :
  validateValue (intValue KInt 15)
    (set_regexp (set_lenMax (set_lenMin ageValidation 5) 25) None)
  = validateValue (intValue KInt 15) ageValidation.
Proof.
  destruct (constraints_of_the_other_kind_are_ignored ageValidation ""
              "int" "int" KInt 15 5 25 None) as [_ Hint];
    [reflexivity | exact Hint].
Defined.

Lemma validateValue_returns_on_predeclared_types_witness :
  exists r, validateValue (ofString "john@example.com")
              (or_flag newValidation Email) = Return r.
Proof.
  destruct (validateValue_returns_on_predeclared_types
              (or_flag newValidation Email) "john@example.com" KInt KUint 0)
    as [Hstr _]; [|exact Hstr].
  intros H. vm_compute in H. discriminate H.
Defined.

Section Passing.
Context {engine : RegexpEngine}.

(** ** When a value passes *)

(** X22: A signed integer whose type name starts with "int" passes exactly
    when
    it is not the zero of a required validation without any active bound,
    and it is within every active bound. *)
Theorem signed_value_passes_iff (name printed : string) (k : SignedKind)
  (n : Z) (v : FieldValidation) :
  HasPrefix name "int" = true ->
  validateValue (signedValue name printed k n) v = Return (true, 0)
  <-> ~ (has_flag v Required = true /\ n = 0
         /\ lowerBoundActive v = false /\ upperBoundActive v = false)
      /\ (lowerBoundActive v = true -> valMin v <= n)
      /\ (upperBoundActive v = true -> n <= valMax v).
Proof.
  intros Hint. rewrite (validateValue_signed _ _ _ _ _ Hint).
  unfold lowerBoundActive, upperBoundActive.
  destruct (has_flag v Required);
    destruct (Z.eqb_spec n 0) as [Hn | Hn];
    destruct (minIsMeaningfulZero v), (maxIsMeaningfulZero v);
    destruct (Z.eqb_spec (valMin v) 0) as [Hmin | Hmin];
    destruct (Z.eqb_spec (valMax v) 0) as [Hmax | Hmax];
    destruct (Z.gtb_spec (valMin v) n) as [Hgt | Hgt];
    destruct (Z.ltb_spec (valMax v) n) as [Hlt | Hlt];
    cbn [andb orb negb];
    (split;
     [ intros Hres;
       first [ discriminate Hres
             | split; [intros (Ha & Hb & Hc & Hd); congruence|];
               split; intros Hact; first [discriminate Hact | lia] ]
     | intros (Hz & Hlo & Hhi);
       first [ reflexivity
             | exfalso; apply Hz; repeat split; (reflexivity || assumption)
             | exfalso; specialize (Hlo eq_refl); lia
             | exfalso; specialize (Hhi eq_refl); lia ] ]).
Qed.

(** X23: A value of type [string] passes exactly when it is not the empty
    string
    of a required validation, its length is within the positive lengths, the
    pattern, if any, finds a match, and, for an email, the email pattern
    compiles and finds a match. *)
Theorem string_value_passes_iff (s : string) (v : FieldValidation) :
  validateValue (ofString s) v = Return (true, 0)
  <-> ~ (has_flag v Required = true /\ s = "")
      /\ ~ (0 < lenMin v /\ len s < lenMin v)
      /\ ~ (0 < lenMax v /\ lenMax v < len s)
      /\ (forall re, regexp v = Some re -> MatchString re s = true)
      /\ (has_flag v Email = true ->
          exists emailRegex, Compile emailPattern = Some emailRegex
                             /\ MatchString emailRegex s = true).
Proof.
  rewrite validateValue_string. unfold MustCompile.
  destruct (has_flag v Required && String.eqb s "") eqn:Ereq.
  { split; [intros Hres; discriminate Hres|]. intros (Hn & _). exfalso.
    apply andb_true_iff in Ereq as [Hr Hs]. apply Hn. split; [exact Hr|].
    apply String.eqb_eq, Hs. }
  assert (Hreq : ~ (has_flag v Required = true /\ s = "")).
  { intros [Hr ->]. rewrite Hr in Ereq. discriminate Ereq. }
  destruct ((lenMin v >? 0) && (len s <? lenMin v)) eqn:Emin.
  { split; [intros Hres; discriminate Hres|]. intros (_ & Hn & _). exfalso.
    apply andb_true_iff in Emin as [Ha Hb]. apply Hn.
    apply Z.gtb_lt in Ha. apply Z.ltb_lt in Hb. lia. }
  assert (Hmin : ~ (0 < lenMin v /\ len s < lenMin v)).
  { intros [Ha Hb]. apply Z.gtb_lt in Ha. apply Z.ltb_lt in Hb.
    rewrite Ha, Hb in Emin. discriminate Emin. }
  destruct ((lenMax v >? 0) && (len s >? lenMax v)) eqn:Emax.
  { split; [intros Hres; discriminate Hres|]. intros (_ & _ & Hn & _).
    exfalso. apply andb_true_iff in Emax as [Ha Hb]. apply Hn.
    apply Z.gtb_lt in Ha. apply Z.gtb_lt in Hb. lia. }
  assert (Hmax : ~ (0 < lenMax v /\ lenMax v < len s)).
  { intros [Ha Hb]. apply Z.gtb_lt in Ha. apply Z.gtb_lt in Hb.
    rewrite Ha, Hb in Emax. discriminate Emax. }
  destruct (match regexp v with
            | Some re => negb (MatchString re s)
            | None => false
            end) eqn:Ere.
  { split; [intros Hres; discriminate Hres|]. intros (_ & _ & _ & Hn & _).
    exfalso. destruct (regexp v) as [re|]; [|discriminate Ere].
    rewrite (Hn re eq_refl) in Ere. discriminate Ere. }
  assert (Hre : forall re, regexp v = Some re -> MatchString re s = true).
  { intros re Hsome. rewrite Hsome in Ere. apply negb_false_iff, Ere. }
  destruct (has_flag v Email).
  - destruct (Compile emailPattern) as [ere|]; cbn [bind].
    + destruct (MatchString ere s) eqn:Eem; cbn [negb].
      * split; [|reflexivity]. intros _. repeat split; try assumption.
        intros _. exists ere. split; [reflexivity | exact Eem].
      * split; [intros Hres; discriminate Hres|].
        intros (_ & _ & _ & _ & Hn). destruct (Hn eq_refl) as (e' & Hc & Hm).
        injection Hc as <-. congruence.
    + split; [intros Hres; discriminate Hres|].
      intros (_ & _ & _ & _ & Hn). destruct (Hn eq_refl) as (e' & Hc & _).
      discriminate Hc.
  - split; [|reflexivity]. intros _. repeat split; try assumption.
    intros Hf. discriminate Hf.
Qed.

End Passing.

Lemma signed_value_passes_iff_witness :
  validateValue (intValue KInt 35) ageValidation = Return (true, 0).
Proof.
  apply (signed_value_passes_iff "int" "int" KInt 35 ageValidation eq_refl).
  split; [intros (_ & H & _); discriminate H|].
  split; intros _; vm_compute; intros H; discriminate H.
Defined.
